(** * Browser history parser

    A shallow embedding of [BrowserHistoryParser] (app.py): the schema
    classifier, the three timestamp converters, the four extraction
    operations and the SQL statements they issue. *)

From Stdlib Require Import ZArith String Ascii List Lia DecimalString.
From stdpp Require Import gmap strings list sorting.

Local Open Scope string_scope.

(** ** Python values

    The values that flow through the parser: what the sqlite3 module hands
    back for a column (None, int, str, bytes) and what the record
    dictionaries hold.  REAL columns (Python floats) are outside the model. *)

Inductive pyval : Type :=
| PyNone
| PyBool (b : bool)
| PyInt (z : Z)
| PyStr (s : string)
| PyBytes (b : list Byte.byte).

(** Truth value testing: None, False, 0, '' and b'' are false. *)
Definition py_truthy (v : pyval) : bool :=
  match v with
  | PyNone => false
  | PyBool b => b
  | PyInt z => negb (z =? 0)%Z
  | PyStr s => negb (String.eqb s "")
  | PyBytes b => match b with [] => false | _ => true end
  end.

(** [v or d] *)
Definition py_or (v d : pyval) : pyval := if py_truthy v then v else d.

(** bool is a subclass of int; nothing else is a number here. *)
Definition py_as_int (v : pyval) : option Z :=
  match v with
  | PyInt z => Some z
  | PyBool b => Some (Z.b2z b)
  | _ => None
  end.

(** [v == 0] *)
Definition py_eq_zero (v : pyval) : bool :=
  match py_as_int v with
  | Some z => (z =? 0)%Z
  | None => false
  end.

(** ** Exceptions

    Every exception the modelled code can raise is a subclass of Exception,
    which is what the handlers of the parser catch. *)

Inductive exn : Type :=
| OperationalError   (* sqlite3: unable to open, no such table, no such column *)
| DatabaseError      (* sqlite3: file is not a database *)
| TypeError
| OverflowError
| ValueError
| UnboundLocalError.

Inductive result (A : Type) : Type :=
| Ok (a : A)
| Raise (e : exn).
Arguments Ok {A} a.
Arguments Raise {A} e.

Definition bind {A B} (m : result A) (k : A -> result B) : result B :=
  match m with
  | Ok a => k a
  | Raise e => Raise e
  end.

Notation "'let!' x ':=' m 'in' k" := (bind m (fun x => k))
  (at level 10, x name, m at level 100, k at level 200).

(** [try: body / except Exception: return h] *)
Definition try_except {A} (body : result A) (h : A) : result A :=
  match body with
  | Ok a => Ok a
  | Raise _ => Ok h
  end.

(** The body of a [for] loop that appends one mapped item per row. *)
Fixpoint for_each {A B} (f : A -> result B) (l : list A) : result (list B) :=
  match l with
  | [] => Ok []
  | x :: l' =>
      let! y := f x in
      let! ys := for_each f l' in
      Ok (y :: ys)
  end.

(** ** Binary64 floats

    A finite float is [f_m * 2 ^ f_e] with |f_m| <= 2^53.  The two float
    operations the parser relies on, the true division of two ints and a
    product by a power of ten, are correctly rounded (round to nearest,
    ties to even), so they are computed here on exact integers. *)

Module Float64.
Local Open Scope Z_scope.

Record t := { f_m : Z; f_e : Z }.

(** floor (log2 (a / b)) for positive [a] and [b]. *)
Definition ilog2_ratio (a b : Z) : Z :=
  let k := Z.log2 a - Z.log2 b in
  let below := if 0 <=? k then a <? b * 2 ^ k else a * 2 ^ (- k) <? b in
  if below then k - 1 else k.

(** [q + r / den] rounded to an integer, ties to even; 0 <= r < den. *)
Definition nearest_even (q r den : Z) : Z :=
  if (den <? 2 * r) || ((den =? 2 * r) && Z.odd q) then q + 1 else q.

(** The float nearest to a / b, for positive [a] and [b]. *)
Definition round_pos (a b : Z) : t :=
  let e := Z.max (ilog2_ratio a b - 52) (- 1074) in
  let num := if 0 <=? e then a else a * 2 ^ (- e) in
  let den := if 0 <=? e then b * 2 ^ e else b in
  {| f_m := nearest_even (num / den) (num mod den) den; f_e := e |}.

(** The float nearest to a / b, for positive [b]. *)
Definition round (a b : Z) : t :=
  if a =? 0 then {| f_m := 0; f_e := 0 |}
  else if 0 <? a then round_pos a b
  else let r := round_pos (- a) b in {| f_m := - f_m r; f_e := f_e r |}.

Definition finite (x : t) : bool :=
  (f_e x <? 0) || (Z.abs (f_m x) * 2 ^ f_e x <? 2 ^ 1024).

(** [a / b] for two ints, [b] positive. *)
Definition truediv (a b : Z) : result t :=
  let x := round a b in
  if finite x then Ok x else Raise OverflowError.

(** [math.modf]: the integral part, and the fractional part as a
    numerator over [2 ^ (- f_e x)], both with the sign of [x]. *)
Definition modf (x : t) : Z * (Z * Z) :=
  if 0 <=? f_e x then (f_m x * 2 ^ f_e x, (0, 1))
  else
    let p := 2 ^ (- f_e x) in
    (Z.quot (f_m x) p, (Z.rem (f_m x) p, p)).

(** Rounding a float to an integer, ties to even. *)
Definition round_half_even (x : t) : Z :=
  if 0 <=? f_e x then f_m x * 2 ^ f_e x
  else
    let p := 2 ^ (- f_e x) in
    nearest_even (f_m x / p) (f_m x mod p) p.

(** What fromtimestamp makes of the float [x] seconds: whole seconds and
    microseconds, the latter rounded to nearest, ties to even. *)
Definition to_timeval (x : t) : Z * Z :=
  let '(intpart, (fr, p)) := modf x in
  let floatpart := round_half_even (round (fr * 1000000) p) in
  if 1000000 <=? floatpart then (intpart + 1, floatpart - 1000000)
  else if floatpart <? 0 then (intpart - 1, floatpart + 1000000)
  else (intpart, floatpart).

End Float64.

(** [v / d] for a positive int [d]: a float. *)
Definition py_truediv (v : pyval) (d : Z) : result Float64.t :=
  match py_as_int v with
  | Some n => Float64.truediv n d
  | None => Raise TypeError
  end.

(** ** The datetime library

    A timedelta is normalised to (days, seconds, microseconds) with
    0 <= seconds < 86400 and 0 <= microseconds < 10^6, which is the
    mixed-radix form of one integer number of microseconds; the model keeps
    that integer.  An aware UTC datetime is kept the same way, as the number
    of microseconds since the start of ordinal day 0, so that its ordinal is
    the quotient by [DAY_US]. *)

Module Datetime.
Local Open Scope Z_scope.

Definition MAXORDINAL : Z := 3652059.
Definition DAY_US : Z := 86400 * 1000000.
Definition MAX_DELTA_DAYS : Z := 999999999.

Definition is_leap (year : Z) : bool :=
  (year mod 4 =? 0) && (negb (year mod 100 =? 0) || (year mod 400 =? 0)).

Definition days_before_year (year : Z) : Z :=
  let y := year - 1 in
  y * 365 + y / 4 - y / 100 + y / 400.

Definition DAYS_IN_MONTH : list Z :=
  [-1; 31; 28; 31; 30; 31; 30; 31; 31; 30; 31; 30; 31].
Definition DAYS_BEFORE_MONTH : list Z :=
  [-1; 0; 31; 59; 90; 120; 151; 181; 212; 243; 273; 304; 334].

Definition days_before_month (year month : Z) : Z :=
  nth (Z.to_nat month) DAYS_BEFORE_MONTH 0
  + Z.b2z ((2 <? month) && is_leap year).

Definition ymd2ord (year month day : Z) : Z :=
  days_before_year year + days_before_month year month + day.

Definition DI400Y : Z := days_before_year 401.
Definition DI100Y : Z := days_before_year 101.
Definition DI4Y : Z := days_before_year 5.

Definition ord2ymd (n : Z) : Z * Z * Z :=
  let n := n - 1 in
  let n400 := n / DI400Y in let n := n mod DI400Y in
  let year := n400 * 400 + 1 in
  let n100 := n / DI100Y in let n := n mod DI100Y in
  let n4 := n / DI4Y in let n := n mod DI4Y in
  let n1 := n / 365 in let n := n mod 365 in
  let year := year + n100 * 100 + n4 * 4 + n1 in
  if (n1 =? 4) || (n100 =? 4) then (year - 1, 12, 31)
  else
    let leapyear := (n1 =? 3) && (negb (n4 =? 24) || (n100 =? 3)) in
    let month := Z.shiftr (n + 50) 5 in
    let preceding :=
      nth (Z.to_nat month) DAYS_BEFORE_MONTH 0
      + Z.b2z ((2 <? month) && leapyear) in
    if n <? preceding then
      let month := month - 1 in
      let preceding :=
        preceding - (nth (Z.to_nat month) DAYS_IN_MONTH 0
                     + Z.b2z ((month =? 2) && leapyear)) in
      (year, month, n - preceding + 1)
    else (year, month, n - preceding + 1).

(** [timedelta(microseconds=n)] and [timedelta(seconds=n)] for an int. *)
Definition timedelta_us (n : Z) : result Z :=
  if MAX_DELTA_DAYS <? Z.abs (n / DAY_US) then Raise OverflowError else Ok n.

Definition timedelta_microseconds (v : pyval) : result Z :=
  match py_as_int v with
  | Some n => timedelta_us n
  | None => Raise TypeError
  end.

Definition timedelta_seconds (v : pyval) : result Z :=
  match py_as_int v with
  | Some n => timedelta_us (n * 1000000)
  | None => Raise TypeError
  end.

(** [datetime(year, month, day, tzinfo=timezone.utc)] *)
Definition datetime (year month day : Z) : Z := ymd2ord year month day * DAY_US.

Definition representable (dt : Z) : bool :=
  (0 <? dt / DAY_US) && (dt / DAY_US <=? MAXORDINAL).

(** [dt + td]: the sum is itself built as a timedelta first. *)
Definition add (dt td : Z) : result Z :=
  let! delta := timedelta_us (dt + td) in
  if representable delta then Ok delta else Raise OverflowError.

(** [datetime.fromtimestamp(x, tz=timezone.utc)] for a float [x].  An
    instant outside the years 1..9999 raises; which exception it is depends
    on how far out the instant lies and on the platform (ValueError from the
    year check, else OverflowError or OSError from the C time functions);
    the model raises ValueError. *)
Definition fromtimestamp (x : Float64.t) : result Z :=
  let '(sec, us) := Float64.to_timeval x in
  let dt := datetime 1970 1 1 + sec * 1000000 + us in
  if representable dt then Ok dt else Raise ValueError.

Definition dec (n : Z) : string := NilZero.string_of_int (Z.to_int n).

Definition pad2 (n : Z) : string :=
  if n <? 10 then "0" ++ dec n else dec n.

Definition pad4 (n : Z) : string :=
  if n <? 10 then "000" ++ dec n
  else if n <? 100 then "00" ++ dec n
  else if n <? 1000 then "0" ++ dec n
  else dec n.

(** [dt.strftime('%Y-%m-%d %H:%M:%S UTC')], with the year zero-padded to
    four digits as the library documents it (the C library of some
    platforms leaves years below 1000 unpadded). *)
Definition strftime (dt : Z) : string :=
  let '(y, m, d) := ord2ymd (dt / DAY_US) in
  let secs := (dt mod DAY_US) / 1000000 in
  let hh := secs / 3600 in
  let mm := (secs mod 3600) / 60 in
  let ss := secs mod 60 in
  pad4 y ++ "-" ++ pad2 m ++ "-" ++ pad2 d ++ " "
  ++ pad2 hh ++ ":" ++ pad2 mm ++ ":" ++ pad2 ss ++ " UTC".

End Datetime.

(** ** Timestamp converters *)

Definition chrome_to_timestamp (chrome_time : pyval) : result pyval :=
  if py_eq_zero chrome_time then Ok (PyStr "Never")
  else
    let epoch_start := Datetime.datetime 1601 1 1 in
    let! td := Datetime.timedelta_microseconds chrome_time in
    let! chrome_datetime := Datetime.add epoch_start td in
    Ok (PyStr (Datetime.strftime chrome_datetime)).

Definition webkit_to_timestamp (webkit_time : pyval) : result pyval :=
  if py_eq_zero webkit_time then Ok (PyStr "Never")
  else
    let epoch_start := Datetime.datetime 2001 1 1 in
    let! td := Datetime.timedelta_seconds webkit_time in
    let! webkit_datetime := Datetime.add epoch_start td in
    Ok (PyStr (Datetime.strftime webkit_datetime)).

Definition firefox_to_timestamp (firefox_time : pyval) : result pyval :=
  if py_eq_zero firefox_time then Ok (PyStr "Never")
  else
    let! seconds := py_truediv firefox_time 1000000 in
    let! firefox_datetime := Datetime.fromtimestamp seconds in
    Ok (PyStr (Datetime.strftime firefox_datetime)).

(** ** The SQLite engine

    The part of SQLite the parser's statements exercise: tables of
    dynamically typed values, inner and left joins on column equality,
    a filter, ORDER BY one column DESC, LIMIT and projection.  Table and
    column names match without regard to ASCII case.  Columns carry no
    declared type, so no affinity conversion takes place in comparisons. *)

Module Sql.
Local Open Scope list_scope.

Inductive sqlval : Type :=
| SqlNull
| SqlInt (z : Z)
| SqlText (s : string)
| SqlBlob (b : list Byte.byte).

(** How the sqlite3 module hands a stored value to Python. *)
Definition to_py (v : sqlval) : pyval :=
  match v with
  | SqlNull => PyNone
  | SqlInt z => PyInt z
  | SqlText s => PyStr s
  | SqlBlob b => PyBytes b
  end.

Definition row := list sqlval.

Record table := {
  tbl_name : string;
  tbl_cols : list string;
  tbl_rows : list row
}.

Definition database := list table.

Definition lower_ascii (c : ascii) : ascii :=
  let n := N_of_ascii c in
  if ((65 <=? n) && (n <=? 90))%N then ascii_of_N (n + 32) else c.

Fixpoint lower (s : string) : string :=
  match s with
  | EmptyString => EmptyString
  | String c s' => String (lower_ascii c) (lower s')
  end.

Definition name_eqb (a b : string) : bool := String.eqb (lower a) (lower b).

Definition find_table (d : database) (name : string) : result table :=
  match List.find (fun t => name_eqb name (tbl_name t)) d with
  | Some t => Ok t
  | None => Raise OperationalError
  end.

(** *** Comparison

    Storage classes order as NULL < INTEGER < TEXT < BLOB; text and blobs
    compare bytewise (the BINARY collation). *)

Fixpoint lex_leb (a b : list N) : bool :=
  match a, b with
  | [], _ => true
  | _ :: _, [] => false
  | x :: a', y :: b' =>
      if (x <? y)%N then true
      else if (x =? y)%N then lex_leb a' b' else false
  end.

Definition text_bytes (s : string) : list N :=
  List.map N_of_ascii (list_ascii_of_string s).

Definition blob_bytes (b : list Byte.byte) : list N := List.map Byte.to_N b.

Definition storage_class (v : sqlval) : Z :=
  match v with
  | SqlNull => 0
  | SqlInt _ => 1
  | SqlText _ => 2
  | SqlBlob _ => 3
  end.

Definition sql_leb (a b : sqlval) : bool :=
  match a, b with
  | SqlNull, SqlNull => true
  | SqlInt x, SqlInt y => (x <=? y)%Z
  | SqlText x, SqlText y => lex_leb (text_bytes x) (text_bytes y)
  | SqlBlob x, SqlBlob y => lex_leb (blob_bytes x) (blob_bytes y)
  | _, _ => (storage_class a <? storage_class b)%Z
  end.

(** [a = b] as a join or filter condition: NULL is equal to nothing. *)
Definition sql_eq (a b : sqlval) : bool :=
  match a, b with
  | SqlInt x, SqlInt y => (x =? y)%Z
  | SqlText x, SqlText y => String.eqb x y
  | SqlBlob x, SqlBlob y => bool_decide (blob_bytes x = blob_bytes y)
  | _, _ => false
  end.

(** *** Name resolution *)

Record cref := { c_qual : option string; c_name : string }.

Definition qcol (alias name : string) : cref :=
  {| c_qual := Some alias; c_name := name |}.
Definition ucol (name : string) : cref :=
  {| c_qual := None; c_name := name |}.

(** The columns in scope, each with the alias of its table. *)
Definition scope := list (string * string).

Definition matches (c : cref) (e : string * string) : bool :=
  name_eqb (c_name c) (snd e)
  && match c_qual c with
     | None => true
     | Some q => name_eqb q (fst e)
     end.

Fixpoint positions {A} (p : A -> bool) (l : list A) (i : nat) : list nat :=
  match l with
  | [] => []
  | x :: l' => if p x then i :: positions p l' (S i) else positions p l' (S i)
  end.

(** No match: no such column.  Several: ambiguous column name. *)
Definition resolve (sc : scope) (c : cref) : result nat :=
  match positions (matches c) sc 0 with
  | [i] => Ok i
  | _ => Raise OperationalError
  end.

Definition col (i : nat) (r : row) : sqlval := List.nth i r SqlNull.

(** *** Statements *)

Inductive join_kind : Type := Inner | LeftOuter.

Record join := {
  j_kind : join_kind;
  j_table : string;
  j_alias : string;
  j_on : cref * cref
}.

Inductive cond : Type :=
| IsNotNull (c : cref)
| EqText (c : cref) (s : string).

Record query := {
  q_select : list cref;
  q_from : string * string;
  q_joins : list join;
  q_where : option cond;
  q_order_by_desc : cref;
  q_limit : option nat
}.

Definition rowset : Type := scope * list row.

Definition scan (d : database) (name alias : string) : result rowset :=
  let! t := find_table d name in
  let width := length (tbl_cols t) in
  Ok (List.map (fun c => (alias, c)) (tbl_cols t),
      List.map (fun r => List.map (fun i => col i r) (seq 0 width)) (tbl_rows t)).

Definition join_rows (k : join_kind) (i j width : nat) (ls rs : list row)
  : list row :=
  flat_map (fun l =>
    let ms := List.filter (fun r => sql_eq (col i (l ++ r)) (col j (l ++ r))) rs in
    match k, ms with
    | LeftOuter, [] => [l ++ repeat SqlNull width]
    | _, _ => List.map (app l) ms
    end) ls.

Definition join_step (d : database) (rel : rowset) (j : join)
  : result rowset :=
  let! right := scan d (j_table j) (j_alias j) in
  let sc := fst rel ++ fst right in
  let! a := resolve sc (fst (j_on j)) in
  let! b := resolve sc (snd (j_on j)) in
  Ok (sc, join_rows (j_kind j) a b (length (fst right)) (snd rel) (snd right)).

Fixpoint join_all (d : database) (rel : rowset) (js : list join)
  : result rowset :=
  match js with
  | [] => Ok rel
  | j :: js' =>
      let! rel' := join_step d rel j in
      join_all d rel' js'
  end.

Definition apply_where (sc : scope) (w : option cond) (rows : list row)
  : result (list row) :=
  match w with
  | None => Ok rows
  | Some (IsNotNull c) =>
      let! i := resolve sc c in
      Ok (List.filter (fun r => match col i r with SqlNull => false | _ => true end)
            rows)
  | Some (EqText c s) =>
      let! i := resolve sc c in
      Ok (List.filter (fun r => sql_eq (col i r) (SqlText s)) rows)
  end.

(** [r1] may come before [r2] under ORDER BY column [k] DESC. *)
Definition desc (k : nat) (r1 r2 : row) : Prop :=
  sql_leb (col k r2) (col k r1) = true.

#[global] Instance desc_dec k r1 r2 : Decision (desc k r1 r2).
Proof. unfold desc. apply _. Defined.

Definition apply_limit (n : option nat) (rows : list row) : list row :=
  match n with
  | Some n => take n rows
  | None => rows
  end.

Definition project (sel : list nat) (r : row) : row :=
  List.map (fun i => col i r) sel.

(** Rows with equal keys come out in an order SQLite does not promise; the
    sort fixes one such order. *)
Definition eval (d : database) (q : query) : result (list row) :=
  let! rel0 := scan d (fst (q_from q)) (snd (q_from q)) in
  let! rel := join_all d rel0 (q_joins q) in
  let! sel := for_each (resolve (fst rel)) (q_select q) in
  let! rows := apply_where (fst rel) (q_where q) (snd rel) in
  let! k := resolve (fst rel) (q_order_by_desc q) in
  Ok (List.map (project sel) (apply_limit (q_limit q) (merge_sort (desc k) rows))).

End Sql.

(** ** Artifacts and connections *)

Inductive artifact : Type :=
| Unopenable                      (* sqlite3.connect raises *)
| NotADatabase                    (* opens, but every statement raises *)
| SqliteFile (d : Sql.database).

Definition filesystem := string -> artifact.

Inductive connection : Type :=
| ConnGarbage
| ConnDb (d : Sql.database).

Definition connect (fs : filesystem) (path : string) : result connection :=
  match fs path with
  | Unopenable => Raise OperationalError
  | NotADatabase => Ok ConnGarbage
  | SqliteFile d => Ok (ConnDb d)
  end.

(** [cursor.execute(query)] followed by [cursor.fetchall()] *)
Definition execute (conn : connection) (q : Sql.query)
  : result (list (list pyval)) :=
  match conn with
  | ConnGarbage => Raise DatabaseError
  | ConnDb d =>
      let! rows := Sql.eval d q in
      Ok (List.map (List.map Sql.to_py) rows)
  end.

(** [SELECT name FROM sqlite_master WHERE type='table'], one name per table
    of the file. *)
Definition table_names (conn : connection) : result (list string) :=
  match conn with
  | ConnGarbage => Raise DatabaseError
  | ConnDb d => Ok (List.map Sql.tbl_name d)
  end.

(** [name in tables] *)
Definition py_in (name : string) (tables : list string) : bool :=
  existsb (String.eqb name) tables.

(** ** The parser *)

Record BrowserHistoryParser := {
  db_path : string;
  browser_type : string
}.

Definition detect_browser_type (fs : filesystem) (path : string)
  : result string :=
  try_except
    (let! conn := connect fs path in
     let! tables := table_names conn in
     if py_in "urls" tables && py_in "visits" tables && py_in "downloads" tables
     then Ok "chrome"
     else if py_in "moz_places" tables && py_in "moz_historyvisits" tables
     then Ok "firefox"
     else if py_in "history_items" tables && py_in "history_visits" tables
     then Ok "safari"
     else Ok "unknown")
    "unknown".

(** [BrowserHistoryParser(db_path)] *)
Definition init (fs : filesystem) (path : string) : result BrowserHistoryParser :=
  let! bt := detect_browser_type fs path in
  Ok {| db_path := path; browser_type := bt |}.

Definition item (i : nat) (row : list pyval) : pyval := List.nth i row PyNone.

(** *** String formatting *)

Definition dquote : ascii := ascii_of_N 34.
Definition squote : ascii := ascii_of_N 39.
Definition backslash : ascii := ascii_of_N 92.

Definition hex_digit (n : N) : ascii :=
  List.nth (N.to_nat n) (list_ascii_of_string "0123456789abcdef") "0"%char.

Definition bytes_repr_char (quote : ascii) (c : Byte.byte) : string :=
  let a := ascii_of_byte c in
  let n := Byte.to_N c in
  if Ascii.eqb a quote || Ascii.eqb a backslash
  then String backslash (String a EmptyString)
  else if (n =? 9)%N then String backslash "t"
  else if (n =? 10)%N then String backslash "n"
  else if (n =? 13)%N then String backslash "r"
  else if ((n <? 32) || (127 <=? n))%N
  then String backslash
         (String "x" (String (hex_digit (n / 16)) (String (hex_digit (n mod 16)) EmptyString)))
  else String a EmptyString.

(** [repr(b)] for bytes *)
Definition bytes_repr (b : list Byte.byte) : string :=
  let has q := existsb (fun c => Ascii.eqb (ascii_of_byte c) q) b in
  let quote := if has squote && negb (has dquote) then dquote else squote in
  "b" ++ String quote
           (String.concat "" (List.map (bytes_repr_char quote) b)
            ++ String quote EmptyString).

(** [f'{v}'] *)
Definition py_format (v : pyval) : string :=
  match v with
  | PyNone => "None"
  | PyBool true => "True"
  | PyBool false => "False"
  | PyInt z => Datetime.dec z
  | PyStr s => s
  | PyBytes b => bytes_repr b
  end.

(** [os.path.basename(p)]: what follows the last slash. *)
Fixpoint basename_from {A} (is_sep : A -> bool) (acc p : list A) : list A :=
  match p with
  | [] => acc
  | c :: p' => if is_sep c then basename_from is_sep p' p'
               else basename_from is_sep acc p'
  end.

Definition basename (p : pyval) : result pyval :=
  match p with
  | PyStr s =>
      let l := list_ascii_of_string s in
      Ok (PyStr (string_of_list_ascii (basename_from (Ascii.eqb "/"%char) l l)))
  | PyBytes b =>
      Ok (PyBytes (basename_from (fun c => Ascii.eqb "/"%char (ascii_of_byte c)) b b))
  | _ => Raise TypeError
  end.

(** *** Record dictionaries *)

Record HistoryRecord := {
  h_last_visit_time : pyval;
  h_url : pyval;
  h_title : pyval;
  h_visit_count : pyval;
  h_typed_count : pyval;
  h_is_hidden : pyval
}.

Record DownloadRecord := {
  d_start_time : pyval;
  d_end_time : pyval;
  d_filename : pyval;
  d_path : pyval;
  d_received_bytes : pyval;
  d_total_bytes : pyval;
  d_source_url : pyval;
  d_referrer_url : pyval
}.

Record VisitRecord := {
  v_visit_time : pyval;
  v_url : pyval;
  v_title : pyval;
  v_transition : pyval;
  v_referrer_url : pyval;
  v_referrer_title : pyval;
  v_segment_name : pyval
}.

Record SearchTermRecord := {
  s_last_visit_time : pyval;
  s_search_url : pyval;
  s_term : pyval;
  s_page_title : pyval;
  s_visit_count : pyval
}.

(** *** The statements *)

Section Queries.
Import Sql.

Definition unjoined (t : string) : string * string := (t, t).

Definition chrome_history_query : query := {|
  q_select := [ucol "last_visit_time"; ucol "url"; ucol "title";
               ucol "visit_count"; ucol "typed_count"; ucol "hidden"];
  q_from := unjoined "urls";
  q_joins := [];
  q_where := None;
  q_order_by_desc := ucol "last_visit_time";
  q_limit := None |}.

Definition firefox_history_query : query := {|
  q_select := [ucol "last_visit_date"; ucol "url"; ucol "title";
               ucol "visit_count"; ucol "typed"; ucol "hidden"];
  q_from := unjoined "moz_places";
  q_joins := [];
  q_where := Some (IsNotNull (ucol "last_visit_date"));
  q_order_by_desc := ucol "last_visit_date";
  q_limit := None |}.

Definition safari_history_query : query := {|
  q_select := [ucol "visit_time"; ucol "url"; ucol "domain_expansion";
               ucol "visit_count"];
  q_from := unjoined "history_items";
  q_joins := [];
  q_where := None;
  q_order_by_desc := ucol "visit_time";
  q_limit := None |}.

Definition chrome_downloads_query : query := {|
  q_select := [ucol "start_time"; ucol "end_time"; ucol "target_path";
               ucol "received_bytes"; ucol "total_bytes"; ucol "tab_url";
               ucol "tab_referrer_url"];
  q_from := unjoined "downloads";
  q_joins := [];
  q_where := None;
  q_order_by_desc := ucol "start_time";
  q_limit := None |}.

Definition firefox_downloads_query : query := {|
  q_select := [ucol "dateAdded"; ucol "lastModified"; ucol "title";
               ucol "content"];
  q_from := ("moz_anno_attributes", "aa");
  q_joins :=
    [ {| j_kind := Inner; j_table := "moz_annos"; j_alias := "a";
         j_on := (qcol "aa" "id", qcol "a" "anno_attribute_id") |};
      {| j_kind := Inner; j_table := "moz_places"; j_alias := "p";
         j_on := (qcol "a" "place_id", qcol "p" "id") |} ];
  q_where := Some (EqText (qcol "aa" "name") "downloads/destinationFileURI");
  q_order_by_desc := ucol "dateAdded";
  q_limit := None |}.

Definition chrome_visits_query : query := {|
  q_select := [qcol "v" "visit_time"; qcol "u" "url"; qcol "u" "title";
               qcol "v" "transition"; qcol "ref_u" "url"; qcol "ref_u" "title"];
  q_from := ("visits", "v");
  q_joins :=
    [ {| j_kind := Inner; j_table := "urls"; j_alias := "u";
         j_on := (qcol "v" "url", qcol "u" "id") |};
      {| j_kind := LeftOuter; j_table := "visits"; j_alias := "ref_v";
         j_on := (qcol "v" "from_visit", qcol "ref_v" "id") |};
      {| j_kind := LeftOuter; j_table := "urls"; j_alias := "ref_u";
         j_on := (qcol "ref_v" "url", qcol "ref_u" "id") |} ];
  q_where := None;
  q_order_by_desc := qcol "v" "visit_time";
  q_limit := Some 1000%nat |}.

Definition firefox_visits_query : query := {|
  q_select := [qcol "hv" "visit_date"; qcol "p" "url"; qcol "p" "title";
               qcol "hv" "visit_type"; qcol "ref_p" "url"; qcol "ref_p" "title"];
  q_from := ("moz_historyvisits", "hv");
  q_joins :=
    [ {| j_kind := Inner; j_table := "moz_places"; j_alias := "p";
         j_on := (qcol "hv" "place_id", qcol "p" "id") |};
      {| j_kind := LeftOuter; j_table := "moz_historyvisits"; j_alias := "ref_hv";
         j_on := (qcol "hv" "from_visit", qcol "ref_hv" "id") |};
      {| j_kind := LeftOuter; j_table := "moz_places"; j_alias := "ref_p";
         j_on := (qcol "ref_hv" "place_id", qcol "ref_p" "id") |} ];
  q_where := None;
  q_order_by_desc := qcol "hv" "visit_date";
  q_limit := Some 1000%nat |}.

Definition chrome_search_terms_query : query := {|
  q_select := [qcol "kt" "last_visit_time"; qcol "kt" "url"; qcol "kt" "term";
               qcol "u" "title"; qcol "u" "visit_count"];
  q_from := ("keyword_search_terms", "kt");
  q_joins :=
    [ {| j_kind := Inner; j_table := "urls"; j_alias := "u";
         j_on := (qcol "kt" "url_id", qcol "u" "id") |} ];
  q_where := None;
  q_order_by_desc := qcol "kt" "last_visit_time";
  q_limit := None |}.

End Queries.

(** *** Row mappers: the dictionary appended for each fetched row *)

Definition yes_no (v : pyval) : pyval :=
  if py_truthy v then PyStr "Yes" else PyStr "No".

Definition chrome_history_record (row : list pyval) : result HistoryRecord :=
  let! t := chrome_to_timestamp (item 0 row) in
  Ok {| h_last_visit_time := t;
        h_url := py_or (item 1 row) (PyStr "");
        h_title := py_or (item 2 row) (PyStr "");
        h_visit_count := py_or (item 3 row) (PyInt 0);
        h_typed_count := py_or (item 4 row) (PyInt 0);
        h_is_hidden := yes_no (item 5 row) |}.

Definition firefox_history_record (row : list pyval) : result HistoryRecord :=
  let! t := firefox_to_timestamp (item 0 row) in
  Ok {| h_last_visit_time := t;
        h_url := py_or (item 1 row) (PyStr "");
        h_title := py_or (item 2 row) (PyStr "");
        h_visit_count := py_or (item 3 row) (PyInt 0);
        h_typed_count := py_or (item 4 row) (PyInt 0);
        h_is_hidden := yes_no (item 5 row) |}.

Definition safari_history_record (row : list pyval) : result HistoryRecord :=
  let! t := webkit_to_timestamp (item 0 row) in
  Ok {| h_last_visit_time := t;
        h_url := py_or (item 1 row) (PyStr "");
        h_title := py_or (item 2 row) (PyStr "");
        h_visit_count := py_or (item 3 row) (PyInt 0);
        h_typed_count := PyInt 0;
        h_is_hidden := PyStr "No" |}.

Definition chrome_download_record (row : list pyval) : result DownloadRecord :=
  let path := py_or (item 2 row) (PyStr "") in
  let! filename := if py_truthy path then basename path else Ok (PyStr "") in
  let! t0 := chrome_to_timestamp (item 0 row) in
  let! t1 := chrome_to_timestamp (item 1 row) in
  Ok {| d_start_time := t0;
        d_end_time := t1;
        d_filename := filename;
        d_path := path;
        d_received_bytes := py_or (item 3 row) (PyInt 0);
        d_total_bytes := py_or (item 4 row) (PyInt 0);
        d_source_url := py_or (item 5 row) (PyStr "");
        d_referrer_url := py_or (item 6 row) (PyStr "") |}.

Definition firefox_download_record (row : list pyval) : result DownloadRecord :=
  let! t0 := firefox_to_timestamp (item 0 row) in
  let! t1 := firefox_to_timestamp (item 1 row) in
  Ok {| d_start_time := t0;
        d_end_time := t1;
        d_filename := py_or (item 2 row) (PyStr "");
        d_path := py_or (item 3 row) (PyStr "");
        d_received_bytes := PyInt 0;
        d_total_bytes := PyInt 0;
        d_source_url := PyStr "";
        d_referrer_url := PyStr "" |}.

(** The dict literal of the chromium branch, keyed by transition code. *)
Definition transition_types : gmap Z string :=
  <[0%Z := "Link"]> (<[1%Z := "Typed"]> (<[2%Z := "Auto Bookmark"]>
  (<[3%Z := "Auto Subframe"]> (<[4%Z := "Manual Subframe"]>
  (<[5%Z := "Generated"]> (<[6%Z := "Start Page"]>
  (<[7%Z := "Form Submit"]> (<[8%Z := "Reload"]> ∅)))))))).

(** [transition_types.get(key, 'Unknown')]: the keys are ints, which only an
    int (or a bool, which hashes and compares as one) can equal. *)
Definition transition_types_get (key : pyval) : string :=
  match py_as_int key with
  | Some n => default "Unknown" (transition_types !! n)
  | None => "Unknown"
  end.

Definition chrome_visit_record (row : list pyval) : result VisitRecord :=
  let! t := chrome_to_timestamp (item 0 row) in
  Ok {| v_visit_time := t;
        v_url := py_or (item 1 row) (PyStr "");
        v_title := py_or (item 2 row) (PyStr "");
        v_transition := PyStr (transition_types_get (item 3 row));
        v_referrer_url := py_or (item 4 row) (PyStr "");
        v_referrer_title := py_or (item 5 row) (PyStr "");
        v_segment_name := PyStr "Chrome History" |}.

Definition firefox_visit_record (row : list pyval) : result VisitRecord :=
  let! t := firefox_to_timestamp (item 0 row) in
  Ok {| v_visit_time := t;
        v_url := py_or (item 1 row) (PyStr "");
        v_title := py_or (item 2 row) (PyStr "");
        v_transition :=
          if py_truthy (item 3 row)
          then PyStr ("Type " ++ py_format (item 3 row))
          else PyStr "Unknown";
        v_referrer_url := py_or (item 4 row) (PyStr "");
        v_referrer_title := py_or (item 5 row) (PyStr "");
        v_segment_name := PyStr "Firefox History" |}.

Definition chrome_search_term_record (row : list pyval)
  : result SearchTermRecord :=
  let! t := chrome_to_timestamp (item 0 row) in
  Ok {| s_last_visit_time := t;
        s_search_url := py_or (item 1 row) (PyStr "");
        s_term := py_or (item 2 row) (PyStr "");
        s_page_title := py_or (item 3 row) (PyStr "");
        s_visit_count := py_or (item 4 row) (PyInt 0) |}.

(** *** The four extraction operations

    Each body binds the local [data] in the branch of the detected family.
    Where no branch binds it, [return data] raises UnboundLocalError, which
    the handler of the operation catches like any other exception.  The
    handler's print is not modelled. *)

Definition return_local {A} (data : option A) : result A :=
  match data with
  | Some d => Ok d
  | None => Raise UnboundLocalError
  end.

Definition get_history_data (fs : filesystem) (self : BrowserHistoryParser)
  : result (list HistoryRecord) :=
  try_except
    (let! conn := connect fs (db_path self) in
     let! data :=
       if String.eqb (browser_type self) "chrome" then
         let! results := execute conn chrome_history_query in
         let! data := for_each chrome_history_record results in
         Ok (Some data)
       else if String.eqb (browser_type self) "firefox" then
         let! results := execute conn firefox_history_query in
         let! data := for_each firefox_history_record results in
         Ok (Some data)
       else if String.eqb (browser_type self) "safari" then
         let! results := execute conn safari_history_query in
         let! data := for_each safari_history_record results in
         Ok (Some data)
       else Ok None in
     return_local data)
    [].

Definition get_downloads_data (fs : filesystem) (self : BrowserHistoryParser)
  : result (list DownloadRecord) :=
  try_except
    (let! conn := connect fs (db_path self) in
     let! data :=
       if String.eqb (browser_type self) "chrome" then
         let! results := execute conn chrome_downloads_query in
         let! data := for_each chrome_download_record results in
         Ok (Some data)
       else if String.eqb (browser_type self) "firefox" then
         let! results := execute conn firefox_downloads_query in
         let! data := for_each firefox_download_record results in
         Ok (Some data)
       else Ok (Some []) in
     return_local data)
    [].

Definition get_visits_data (fs : filesystem) (self : BrowserHistoryParser)
  : result (list VisitRecord) :=
  try_except
    (let! conn := connect fs (db_path self) in
     let! data :=
       if String.eqb (browser_type self) "chrome" then
         let! results := execute conn chrome_visits_query in
         let! data := for_each chrome_visit_record results in
         Ok (Some data)
       else if String.eqb (browser_type self) "firefox" then
         let! results := execute conn firefox_visits_query in
         let! data := for_each firefox_visit_record results in
         Ok (Some data)
       else Ok (Some []) in
     return_local data)
    [].

Definition get_search_terms_data (fs : filesystem) (self : BrowserHistoryParser)
  : result (list SearchTermRecord) :=
  try_except
    (let! conn := connect fs (db_path self) in
     let! data :=
       if String.eqb (browser_type self) "chrome" then
         let! results := execute conn chrome_search_terms_query in
         let! data := for_each chrome_search_term_record results in
         Ok (Some data)
       else Ok (Some []) in
     return_local data)
    [].

(** ** Sample artifacts *)

Module Samples.
Import Sql.

Definition chrome_db : database :=
  [ {| tbl_name := "urls";
       tbl_cols := ["id"; "url"; "title"; "visit_count"; "typed_count";
                    "last_visit_time"; "hidden"];
       tbl_rows :=
         [ [SqlInt 1; SqlText "https://a.example/"; SqlText "A"; SqlInt 3;
            SqlInt 1; SqlInt 13303960000000000; SqlInt 0];
           [SqlInt 2; SqlText "https://b.example/"; SqlNull; SqlInt 1;
            SqlInt 0; SqlInt 13303960005000000; SqlInt 1] ] |};
    {| tbl_name := "visits";
       tbl_cols := ["id"; "url"; "visit_time"; "from_visit"; "transition"];
       tbl_rows :=
         [ [SqlInt 10; SqlInt 1; SqlInt 13303960000000000; SqlInt 0; SqlInt 1];
           [SqlInt 11; SqlInt 2; SqlInt 13303960005000000; SqlInt 10; SqlInt 0];
           [SqlInt 12; SqlInt 1; SqlInt 13303960003000000; SqlInt 99;
            SqlInt 805306368] ] |};
    {| tbl_name := "downloads";
       tbl_cols := ["id"; "start_time"; "end_time"; "target_path";
                    "received_bytes"; "total_bytes"; "tab_url";
                    "tab_referrer_url"];
       tbl_rows :=
         [ [SqlInt 1; SqlInt 13303960000000000; SqlInt 0;
            SqlText "/home/u/Downloads/a.zip"; SqlInt 10; SqlInt 20;
            SqlText "https://a.example/"; SqlNull] ] |};
    {| tbl_name := "keyword_search_terms";
       tbl_cols := ["keyword_id"; "url_id"; "term"; "normalized_term";
                    "url"; "last_visit_time"];
       tbl_rows := [] |} ].

Definition firefox_db : database :=
  [ {| tbl_name := "moz_places";
       tbl_cols := ["id"; "url"; "title"; "visit_count"; "typed"; "hidden";
                    "last_visit_date"];
       tbl_rows :=
         [ [SqlInt 1; SqlText "https://a.example/"; SqlText "A"; SqlInt 2;
            SqlInt 0; SqlInt 0; SqlInt 1600000001000000];
           [SqlInt 2; SqlText "https://b.example/"; SqlText "B"; SqlInt 1;
            SqlInt 0; SqlInt 0; SqlNull] ] |};
    {| tbl_name := "moz_historyvisits";
       tbl_cols := ["id"; "from_visit"; "place_id"; "visit_date"; "visit_type"];
       tbl_rows :=
         [ [SqlInt 1; SqlInt 0; SqlInt 1; SqlInt 1600000000000000; SqlInt 1];
           [SqlInt 2; SqlInt 1; SqlInt 2; SqlInt 1600000001000000; SqlInt 0];
           [SqlInt 3; SqlInt 2; SqlInt 1; SqlInt 1600000002000000; SqlNull] ] |} ].

Definition safari_db : database :=
  [ {| tbl_name := "history_items";
       tbl_cols := ["id"; "url"; "domain_expansion"; "visit_count"; "visit_time"];
       tbl_rows :=
         [ [SqlInt 1; SqlText "https://a.example/"; SqlText "a"; SqlInt 4;
            SqlInt 631152000] ] |};
    {| tbl_name := "history_visits";
       tbl_cols := ["id"; "history_item"; "visit_time"];
       tbl_rows := [] |} ].

(** A chromium file whose second url carries a timestamp far beyond the
    year 9999. *)
Definition far_future_db : database :=
  [ {| tbl_name := "urls";
       tbl_cols := ["id"; "url"; "title"; "visit_count"; "typed_count";
                    "last_visit_time"; "hidden"];
       tbl_rows :=
         [ [SqlInt 1; SqlText "https://a.example/"; SqlText "A"; SqlInt 3;
            SqlInt 1; SqlInt 13303960000000000; SqlInt 0];
           [SqlInt 2; SqlText "https://b.example/"; SqlText "B"; SqlInt 1;
            SqlInt 0; SqlInt (2 ^ 62); SqlInt 0] ] |};
    {| tbl_name := "visits";
       tbl_cols := ["id"; "url"; "visit_time"; "from_visit"; "transition"];
       tbl_rows := [] |};
    {| tbl_name := "downloads";
       tbl_cols := ["id"; "start_time"; "end_time"; "target_path";
                    "received_bytes"; "total_bytes"; "tab_url";
                    "tab_referrer_url"];
       tbl_rows := [] |} ].

(** One file per path; any other path cannot be opened. *)
Definition fs : filesystem := fun path =>
  if String.eqb path "History" then SqliteFile chrome_db
  else if String.eqb path "History-far-future" then SqliteFile far_future_db
  else if String.eqb path "places.sqlite" then SqliteFile firefox_db
  else if String.eqb path "History.db" then SqliteFile safari_db
  else if String.eqb path "notes.txt" then NotADatabase
  else Unopenable.

Definition chrome := {| db_path := "History"; browser_type := "chrome" |}.
Definition far_future :=
  {| db_path := "History-far-future"; browser_type := "chrome" |}.
Definition firefox := {| db_path := "places.sqlite"; browser_type := "firefox" |}.
Definition safari := {| db_path := "History.db"; browser_type := "safari" |}.

(** The two history records of [chrome_db], newest first. *)
Definition hidden_record : HistoryRecord :=
  {| h_last_visit_time := PyStr "2022-08-03 00:26:45 UTC";
     h_url := PyStr "https://b.example/";
     h_title := PyStr "";
     h_visit_count := PyInt 1;
     h_typed_count := PyInt 0;
     h_is_hidden := PyStr "Yes" |}.

Definition shown_record : HistoryRecord :=
  {| h_last_visit_time := PyStr "2022-08-03 00:26:40 UTC";
     h_url := PyStr "https://a.example/";
     h_title := PyStr "A";
     h_visit_count := PyInt 3;
     h_typed_count := PyInt 1;
     h_is_hidden := PyStr "No" |}.

(** A fetched gecko visit row and the record made of it. *)
Definition gecko_row : list pyval :=
  [PyInt 1600000000000000; PyStr "https://a.example/"; PyStr "A";
   PyInt 1; PyNone; PyNone].

Definition gecko_record : VisitRecord :=
  {| v_visit_time := PyStr "2020-09-13 12:26:40 UTC";
     v_url := PyStr "https://a.example/";
     v_title := PyStr "A";
     v_transition := PyStr "Type 1";
     v_referrer_url := PyStr "";
     v_referrer_title := PyStr "";
     v_segment_name := PyStr "Firefox History" |}.

End Samples.

(** ** Vocabulary of the statements *)

(** The instant [us] microseconds after the datetime [epoch] falls on a day
    outside the ordinals 1..MAXORDINAL, for which the library has no date. *)
Definition unrepresentable (epoch us : Z) : Prop :=
  ((epoch + us) / Datetime.DAY_US < 1
   \/ Datetime.MAXORDINAL < (epoch + us) / Datetime.DAY_US)%Z.

(** The microseconds after the Unix epoch that fromtimestamp makes of the
    float [n / 1000000]. *)
Definition gecko_micros (n : Z) : Z :=
  let '(sec, us) := Float64.to_timeval (Float64.round n 1000000) in
  (sec * 1000000 + us)%Z.

(** [r1], listed before [r2], carries an integer timestamp that is not
    older than the integer timestamp of [r2]. *)
Definition newer_or_same (r1 r2 : Sql.row) : Prop :=
  exists t1 t2,
    Sql.col 0 r1 = Sql.SqlInt t1 /\ Sql.col 0 r2 = Sql.SqlInt t2 /\ (t2 <= t1)%Z.

(** What one branch of an operation does with its statement and row mapper. *)
Definition run_branch {R} (conn : connection) (q : Sql.query)
  (mk : list pyval -> result R) : result (option (list R)) :=
  let! results := execute conn q in
  let! data := for_each mk results in
  Ok (Some data).

(** ** The web routes *)

#[local] Unset Elimination Schemes.
Inductive json : Type :=
| JNull
| JBool (b : bool)
| JInt (z : Z)
| JStr (s : string)
| JArr (items : list json)
| JObj (fields : list (string * json)).
#[local] Set Elimination Schemes.

(** What the JSON provider makes of a value: bytes are not serializable. *)
Definition to_json (v : pyval) : result json :=
  match v with
  | PyNone => Ok JNull
  | PyBool b => Ok (JBool b)
  | PyInt z => Ok (JInt z)
  | PyStr s => Ok (JStr s)
  | PyBytes _ => Raise TypeError
  end.

(** The record dictionaries as their items, in the order of the literal. *)
Definition history_items (r : HistoryRecord) : list (string * pyval) :=
  [ ("last_visit_time", h_last_visit_time r); ("url", h_url r);
    ("title", h_title r); ("visit_count", h_visit_count r);
    ("typed_count", h_typed_count r); ("is_hidden", h_is_hidden r) ].

Definition download_items (r : DownloadRecord) : list (string * pyval) :=
  [ ("start_time", d_start_time r); ("end_time", d_end_time r);
    ("filename", d_filename r); ("path", d_path r);
    ("received_bytes", d_received_bytes r); ("total_bytes", d_total_bytes r);
    ("source_url", d_source_url r); ("referrer_url", d_referrer_url r) ].

Definition visit_items (r : VisitRecord) : list (string * pyval) :=
  [ ("visit_time", v_visit_time r); ("url", v_url r); ("title", v_title r);
    ("transition", v_transition r); ("referrer_url", v_referrer_url r);
    ("referrer_title", v_referrer_title r);
    ("segment_name", v_segment_name r) ].

Definition search_term_items (r : SearchTermRecord) : list (string * pyval) :=
  [ ("last_visit_time", s_last_visit_time r); ("search_url", s_search_url r);
    ("term", s_term r); ("page_title", s_page_title r);
    ("visit_count", s_visit_count r) ].

Definition dict_json (items : list (string * pyval)) : result json :=
  let! fields :=
    for_each (fun kv => let! j := to_json (snd kv) in Ok (fst kv, j)) items in
  Ok (JObj fields).

(** [jsonify({'data': data, 'browser_type': browser_type})] *)
Definition jsonify_data {R} (items : R -> list (string * pyval))
  (data : list R) (bt : string) : result json :=
  let! rows := for_each (fun r => dict_json (items r)) data in
  Ok (JObj [("data", JArr rows); ("browser_type", JStr bt)]).

Definition response : Type := json * Z.

(** [jsonify({'error': message}), status] *)
Definition error_response (message : string) (status : Z) : response :=
  (JObj [("error", JStr message)], status).

(** *** String methods

    Names and tags are byte strings here; the methods below change ASCII
    letters only, which is all the tags consist of and all that can make a
    name end in '.sqlite'. *)

Definition is_ascii_lower (c : ascii) : bool :=
  let n := N_of_ascii c in ((97 <=? n) && (n <=? 122))%N.

Definition is_ascii_upper (c : ascii) : bool :=
  let n := N_of_ascii c in ((65 <=? n) && (n <=? 90))%N.

Definition upper_ascii (c : ascii) : ascii :=
  if is_ascii_lower c then ascii_of_N (N_of_ascii c - 32) else c.

(** [s.title()] *)
Fixpoint title_from (previous_is_cased : bool) (s : string) : string :=
  match s with
  | EmptyString => EmptyString
  | String c s' =>
      if is_ascii_lower c then
        String (if previous_is_cased then c else upper_ascii c)
          (title_from true s')
      else if is_ascii_upper c then
        String (if previous_is_cased then Sql.lower_ascii c else c)
          (title_from true s')
      else String c (title_from false s')
  end.

Definition title (s : string) : string := title_from false s.

(** [s.endswith(suffix)] *)
Definition endswith (s suffix : string) : bool :=
  let n := String.length s in
  let m := String.length suffix in
  (m <=? n)%nat && String.eqb (String.substring (n - m) m s) suffix.

(** [os.path.join(a, b)] *)
Definition path_join (a b : string) : string :=
  if String.prefix "/" b then b
  else if String.eqb a "" || endswith a "/" then a ++ b
  else a ++ "/" ++ b.

(** An uploaded file: its name, and its content as SQLite will see it. *)
Record FileStorage := {
  filename : string;
  stream : artifact
}.

Section Web.

(** [str(e)] of a caught exception. *)
Variable str_exn : exn -> string.

(** werkzeug's [secure_filename]. *)
Variable secure_filename : string -> string.

(** [app.config['UPLOAD_FOLDER']], a fresh temporary directory. *)
Variable UPLOAD_FOLDER : string.

(** [file.save(path)]: the file system afterwards, and the exception if it
    raised. *)
Variable save : filesystem -> string -> artifact -> filesystem * option exn.

(** The routes read the global [current_parser]; the upload route alone
    assigns it. *)

Definition upload_file (fs : filesystem)
  (current_parser : option BrowserHistoryParser) (file : option FileStorage)
  : response * filesystem * option BrowserHistoryParser :=
  match file with
  | None => (error_response "No file selected" 400, fs, current_parser)
  | Some file =>
      if String.eqb (filename file) "" then
        (error_response "No file selected" 400, fs, current_parser)
      else if py_truthy (PyStr (filename file))
              && endswith (Sql.lower (filename file)) ".sqlite" then
        let name := secure_filename (filename file) in
        let filepath := path_join UPLOAD_FOLDER name in
        match save fs filepath (stream file) with
        | (fs', Some e) =>
            (error_response ("Error processing file: " ++ str_exn e) 500,
             fs', current_parser)
        | (fs', None) =>
            match init fs' filepath with
            | Raise e =>
                (error_response ("Error processing file: " ++ str_exn e) 500,
                 fs', current_parser)
            | Ok parser =>
                ((JObj [ ("success", JBool true);
                         ("filename", JStr name);
                         ("browser_type", JStr (browser_type parser));
                         ("message",
                          JStr ("Successfully loaded "
                                ++ title (browser_type parser)
                                ++ " database")) ],
                  200%Z),
                 fs', Some parser)
            end
        end
      else
        (error_response "Invalid file type. Please upload a .sqlite file" 400,
         fs, current_parser)
  end.

Definition respond (body : result json) : response :=
  match body with
  | Ok j => (j, 200%Z)
  | Raise e => error_response (str_exn e) 500
  end.

Definition get_history (fs : filesystem)
  (current_parser : option BrowserHistoryParser) : response :=
  match current_parser with
  | None => error_response "No database loaded" 400
  | Some parser =>
      respond (let! data := get_history_data fs parser in
               jsonify_data history_items data (browser_type parser))
  end.

Definition get_downloads (fs : filesystem)
  (current_parser : option BrowserHistoryParser) : response :=
  match current_parser with
  | None => error_response "No database loaded" 400
  | Some parser =>
      respond (let! data := get_downloads_data fs parser in
               jsonify_data download_items data (browser_type parser))
  end.

Definition get_visits (fs : filesystem)
  (current_parser : option BrowserHistoryParser) : response :=
  match current_parser with
  | None => error_response "No database loaded" 400
  | Some parser =>
      respond (let! data := get_visits_data fs parser in
               jsonify_data visit_items data (browser_type parser))
  end.

Definition get_search_terms (fs : filesystem)
  (current_parser : option BrowserHistoryParser) : response :=
  match current_parser with
  | None => error_response "No database loaded" 400
  | Some parser =>
      respond (let! data := get_search_terms_data fs parser in
               jsonify_data search_term_items data (browser_type parser))
  end.

End Web.

(** ** The startup script (startup.py)

    The script works on the directory it lies in: the entries templates and
    static, and the file templates/index.html.  What an import or the
    running server does is given by the environment. *)

Module Startup.

Inductive node : Type := Absent | RegularFile | Directory.

(** [index_html] tells whether templates/index.html exists; it is read
    only while templates is a directory. *)
Record tree := {
  templates : node;
  static : node;
  index_html : bool
}.

(** [Path.mkdir(exist_ok=True)]: nothing to do on a directory, and
    FileExistsError (None) on any other existing entry. *)
Definition mkdir (n : node) : option node :=
  match n with
  | Absent => Some Directory
  | Directory => Some Directory
  | RegularFile => None
  end.

(** [index_path.exists()] *)
Definition index_exists (t : tree) : bool :=
  match templates t with
  | Directory => index_html t
  | _ => false
  end.

(** What a call leaves: the lines it printed, the directory, and the value
    it returned, or None when it raised FileExistsError. *)
Record created := {
  c_printed : list string;
  c_after : tree;
  c_returned : option bool
}.

Definition create_directory_structure (t : tree) : created :=
  match mkdir (templates t) with
  | None => {| c_printed := []; c_after := t; c_returned := None |}
  | Some n =>
      let t1 := {| templates := n; static := static t;
                   index_html := index_exists t |} in
      match mkdir (static t1) with
      | None => {| c_printed := []; c_after := t1; c_returned := None |}
      | Some m =>
          let t2 := {| templates := templates t1; static := m;
                       index_html := index_html t1 |} in
          if negb (index_exists t2) then
            {| c_printed :=
                 [ "⚠️  Warning: templates/index.html not found!";
                   "Please save the HTML template as 'templates/index.html'" ];
               c_after := t2; c_returned := Some false |}
          else {| c_printed := []; c_after := t2; c_returned := Some true |}
      end
  end.

(** An exception out of importing app.py or out of the running server: an
    ImportError, another Exception with its text, or an exception that is
    no Exception (KeyboardInterrupt, SystemExit and every other
    BaseException), known by the name of its class. *)
Inductive app_failure : Type :=
| AppImportError
| AppException (text : string)
| AppBaseException (name : string).

(** An import succeeds (None) or raises ImportError with a text; importing
    app.py and running the server end normally (None) or raise. *)
Record environment := {
  import_flask : option string;
  import_werkzeug : option string;
  import_app : option app_failure;
  run_app : option app_failure
}.

Definition check_requirements (env : environment) : list string * bool :=
  match import_flask env, import_werkzeug env with
  | None, None => ([], true)
  | Some e, _ | None, Some e =>
      ([ "❌ Missing required package: " ++ e;
         "Please install requirements with: pip install Flask Werkzeug" ],
       false)
  end.

(** [s * n] *)
Fixpoint repeat_string (s : string) (n : nat) : string :=
  match n with
  | O => EmptyString
  | S n' => s ++ repeat_string s n'
  end.

(** An exception [main] lets through: the FileExistsError of a mkdir, or
    an exception that is no Exception, by the name of its class. *)
Inductive raised : Type :=
| FileExistsError
| BaseException (name : string).

(** What [main] leaves: the lines printed, the directory, the exception it
    let through if any, and whether it got to call [app.run]. *)
Record ran := {
  m_printed : list string;
  m_after : tree;
  m_raised : option raised;
  m_served : bool
}.

(** The two handlers of [main]. *)
Definition handlers (f : app_failure) : list string * option raised :=
  match f with
  | AppImportError =>
      ([ "❌ Could not import app.py";
         "Please ensure app.py is in the same directory as this script" ], None)
  | AppException e => ([ "❌ Error starting application: " ++ e ], None)
  | AppBaseException name => ([], Some (BaseException name))
  end.

Definition main (env : environment) (t : tree) : ran :=
  let head := [ "🌐 Browser History Viewer"; repeat_string "=" 50 ] in
  let '(lines, ok) := check_requirements env in
  if negb ok then
    {| m_printed := (head ++ lines)%list; m_after := t; m_raised := None;
       m_served := false |}
  else
    let c := create_directory_structure t in
    let out := (head ++ lines ++ c_printed c)%list in
    match c_returned c with
    | None =>
        {| m_printed := out; m_after := c_after c;
           m_raised := Some FileExistsError; m_served := false |}
    | Some false =>
        {| m_printed := out; m_after := c_after c; m_raised := None;
           m_served := false |}
    | Some true =>
        match import_app env with
        | Some f =>
            {| m_printed := (out ++ fst (handlers f))%list; m_after := c_after c;
               m_raised := snd (handlers f); m_served := false |}
        | None =>
            let out :=
              (out ++ [ "✅ Application loaded successfully!";
                       "🚀 Starting server...";
                       "📂 Upload your browser database files at: http://localhost:5000";
                       "⏹️  Press Ctrl+C to stop the server";
                       repeat_string "-" 50 ])%list in
            match run_app env with
            | Some f =>
                {| m_printed := (out ++ fst (handlers f))%list; m_after := c_after c;
                   m_raised := snd (handlers f); m_served := true |}
            | None =>
                {| m_printed := out; m_after := c_after c; m_raised := None;
                   m_served := true |}
            end
        end
    end.

End Startup.

(** ** More vocabulary *)

(** [s] holds a hyphen. *)
Definition has_dash (s : string) : bool :=
  existsb (Ascii.eqb "-"%char) (list_ascii_of_string s).

(** The position of the column called [name] in table [t], as an
    unqualified reference to it resolves. *)
Definition column_index (t : Sql.table) (name : string) : result nat :=
  Sql.resolve (List.map (fun c => (Sql.tbl_name t, c)) (Sql.tbl_cols t))
    (Sql.ucol name).

Definition is_null (v : Sql.sqlval) : bool :=
  match v with
  | Sql.SqlNull => true
  | _ => false
  end.

(** A stored row as a scan hands it on: cut or filled with NULL to the
    number of columns of its table. *)
Definition padded (width : nat) (r : Sql.row) : Sql.row :=
  List.map (fun i => Sql.col i r) (seq 0 width).

(** No table of [d] goes by [name], in any case of its letters. *)
Definition lacks_table (d : Sql.database) (name : string) : Prop :=
  forall t, In t d -> Sql.name_eqb name (Sql.tbl_name t) = false.

(** [s] holds no slash. *)
Definition no_slash (s : string) : Prop :=
  ~ In "/"%char (list_ascii_of_string s).

(** Some item of some record of [data] is a bytes value. *)
Definition holds_bytes {R} (items : R -> list (string * pyval))
  (data : list R) : Prop :=
  exists r kv b, In r data /\ In kv (items r) /\ snd kv = PyBytes b.

(** How an API route answers: 400 while no parser is loaded; else 200 with
    one JSON object per record and the parser's tag, or 500 when a record
    holds bytes. *)
Definition answers {R} (str_exn : exn -> string)
  (route : filesystem -> option BrowserHistoryParser -> response)
  (get : filesystem -> BrowserHistoryParser -> result (list R))
  (items : R -> list (string * pyval)) : Prop :=
  forall fs,
    route fs None = error_response "No database loaded" 400 /\
    forall parser, exists data,
      get fs parser = Ok data /\
      (~ holds_bytes items data ->
       exists rows,
         route fs (Some parser)
         = (JObj [("data", JArr rows);
                  ("browser_type", JStr (browser_type parser))], 200%Z)
         /\ length rows = length data) /\
      (holds_bytes items data ->
       route fs (Some parser) = error_response (str_exn TypeError) 500).

(** The upload route turns [file] away: there is none, its name is empty,
    or its name does not end in '.sqlite' in any case of the letters. *)
Definition rejected (file : option FileStorage) : Prop :=
  file = None \/
  exists f, file = Some f /\
    (filename f = "" \/ endswith (Sql.lower (filename f)) ".sqlite" = false).

(** The tags and how the upload message spells them. *)
Definition tag_titles : list (string * string) :=
  [ ("chrome", "Chrome"); ("firefox", "Firefox"); ("safari", "Safari");
    ("unknown", "Unknown") ].

Module MoreSamples.

(** The one history record of [Samples.firefox_db]. *)
Definition visited_place : HistoryRecord :=
  {| h_last_visit_time := PyStr "2020-09-13 12:26:41 UTC";
     h_url := PyStr "https://a.example/";
     h_title := PyStr "A";
     h_visit_count := PyInt 2;
     h_typed_count := PyInt 0;
     h_is_hidden := PyStr "No" |}.

(** A chromium file whose second url was never visited: its
    last_visit_time is NULL. *)
Definition unvisited_db : Sql.database :=
  [ {| Sql.tbl_name := "urls";
       Sql.tbl_cols := ["id"; "url"; "title"; "visit_count"; "typed_count";
                        "last_visit_time"; "hidden"];
       Sql.tbl_rows :=
         [ [Sql.SqlInt 1; Sql.SqlText "https://a.example/"; Sql.SqlText "A";
            Sql.SqlInt 3; Sql.SqlInt 1; Sql.SqlInt 13303960000000000;
            Sql.SqlInt 0];
           [Sql.SqlInt 2; Sql.SqlText "https://b.example/"; Sql.SqlText "B";
            Sql.SqlInt 0; Sql.SqlInt 0; Sql.SqlNull; Sql.SqlInt 0] ] |};
    {| Sql.tbl_name := "visits";
       Sql.tbl_cols := ["id"; "url"; "visit_time"; "from_visit"; "transition"];
       Sql.tbl_rows := [] |};
    {| Sql.tbl_name := "downloads";
       Sql.tbl_cols := ["id"; "start_time"; "end_time"; "target_path";
                        "received_bytes"; "total_bytes"; "tab_url";
                        "tab_referrer_url"];
       Sql.tbl_rows := [] |} ].

Definition fs : filesystem := fun path =>
  if String.eqb path "History-unvisited" then SqliteFile unvisited_db
  else Samples.fs path.

Definition unvisited :=
  {| db_path := "History-unvisited"; browser_type := "chrome" |}.

(** The one download record of [Samples.chrome_db]. *)
Definition zip_download : DownloadRecord :=
  {| d_start_time := PyStr "2022-08-03 00:26:40 UTC";
     d_end_time := PyStr "Never";
     d_filename := PyStr "a.zip";
     d_path := PyStr "/home/u/Downloads/a.zip";
     d_received_bytes := PyInt 10;
     d_total_bytes := PyInt 20;
     d_source_url := PyStr "https://a.example/";
     d_referrer_url := PyStr "" |}.

(** The three visit records of [Samples.chrome_db], newest first; the
    second names a referrer that is no visit. *)
Definition visit_b : VisitRecord :=
  {| v_visit_time := PyStr "2022-08-03 00:26:45 UTC";
     v_url := PyStr "https://b.example/";
     v_title := PyStr "";
     v_transition := PyStr "Link";
     v_referrer_url := PyStr "https://a.example/";
     v_referrer_title := PyStr "A";
     v_segment_name := PyStr "Chrome History" |}.

Definition visit_a2 : VisitRecord :=
  {| v_visit_time := PyStr "2022-08-03 00:26:43 UTC";
     v_url := PyStr "https://a.example/";
     v_title := PyStr "A";
     v_transition := PyStr "Unknown";
     v_referrer_url := PyStr "";
     v_referrer_title := PyStr "";
     v_segment_name := PyStr "Chrome History" |}.

Definition visit_a1 : VisitRecord :=
  {| v_visit_time := PyStr "2022-08-03 00:26:40 UTC";
     v_url := PyStr "https://a.example/";
     v_title := PyStr "A";
     v_transition := PyStr "Typed";
     v_referrer_url := PyStr "";
     v_referrer_title := PyStr "";
     v_segment_name := PyStr "Chrome History" |}.

(** A file system that takes every write. *)
Definition write (fs : filesystem) (path : string) (content : artifact)
  : filesystem * option exn :=
  (fun p => if String.eqb p path then content else fs p, None).

(** A file system that takes no write. *)
Definition refuse (fs : filesystem) (path : string) (content : artifact)
  : filesystem * option exn :=
  (fs, Some OperationalError).

Definition upload : FileStorage :=
  {| filename := "Places.SQLite"; stream := SqliteFile Samples.firefox_db |}.

Definition text_of (e : exn) : string := "failed".
Definition keep (name : string) : string := name.
Definition folder : string := "/tmp/uploads".

Definition saved_path : string := path_join folder (keep (filename upload)).
Definition fs_saved : filesystem :=
  fst (write Samples.fs saved_path (stream upload)).

Definition uploaded :=
  upload_file text_of keep folder write Samples.fs None (Some upload).

(** A chromium file whose one url is stored as a BLOB. *)
Definition blob_db : Sql.database :=
  [ {| Sql.tbl_name := "urls";
       Sql.tbl_cols := ["id"; "url"; "title"; "visit_count"; "typed_count";
                        "last_visit_time"; "hidden"];
       Sql.tbl_rows :=
         [ [Sql.SqlInt 1; Sql.SqlBlob [Byte.x68; Byte.x74; Byte.x74; Byte.x70];
            Sql.SqlText "A"; Sql.SqlInt 3; Sql.SqlInt 1;
            Sql.SqlInt 13303960000000000; Sql.SqlInt 0] ] |} ].

Definition blob_parser :=
  {| db_path := "History-blob"; browser_type := "chrome" |}.

End MoreSamples.

(** * Properties *)

(** ** Worked values *)

Example chrome_2022 :
  chrome_to_timestamp (PyInt 13303960000000000)
  = Ok (PyStr "2022-08-03 00:26:40 UTC").
Proof. vm_compute. reflexivity. Qed.

Example webkit_2021 :
  webkit_to_timestamp (PyInt 631152000) = Ok (PyStr "2021-01-01 00:00:00 UTC").
Proof. vm_compute. reflexivity. Qed.

Example firefox_1970 :
  firefox_to_timestamp (PyInt 1000000) = Ok (PyStr "1970-01-01 00:00:01 UTC").
Proof. vm_compute. reflexivity. Qed.

(** The float quotient of a gecko timestamp one microsecond before the
    year 1 is the float of the first second of the year 1. *)
Example firefox_rounds_into_range :
  firefox_to_timestamp (PyInt (-62135596800000001))
  = Ok (PyStr "0001-01-01 00:00:00 UTC").
Proof. vm_compute. reflexivity. Qed.

Example firefox_rounds_out_of_range :
  firefox_to_timestamp (PyInt 253402300799999999) = Raise ValueError.
Proof. vm_compute. reflexivity. Qed.

Example format_negative : py_format (PyInt (-5)) = "-5".
Proof. reflexivity. Qed.

Example basename_nested :
  basename (PyStr "/home/u/Downloads/a.zip") = Ok (PyStr "a.zip").
Proof. reflexivity. Qed.

(** ** The error monad *)

Lemma bind_ok {A B} (m : result A) (k : A -> result B) (b : B) :
  bind m k = Ok b -> exists a, m = Ok a /\ k a = Ok b.
Proof. destruct m as [a|e]; simpl; [eauto | discriminate]. Qed.

Lemma try_except_total {A} (body : result A) (h : A) :
  exists a, try_except body h = Ok a.
Proof. destruct body; simpl; eauto. Qed.

Lemma try_except_raise {A} (body : result A) (h : A) (e : exn) :
  body = Raise e -> try_except body h = Ok h.
Proof. intros ->. reflexivity. Qed.

Lemma try_except_inv {A} (body : result A) (h a : A) :
  try_except body h = Ok a -> body = Ok a \/ a = h.
Proof. destruct body; simpl; intros [= <-]; auto. Qed.

Lemma for_each_Forall2 {A B} (f : A -> result B) (l : list A) (ys : list B) :
  for_each f l = Ok ys -> Forall2 (fun x y => f x = Ok y) l ys.
Proof.
  revert ys. induction l as [|x l IH]; simpl; intros ys H.
  - injection H as <-. constructor.
  - apply bind_ok in H as (y & Hy & H).
    apply bind_ok in H as (ys' & Hys & H).
    injection H as <-. constructor; auto.
Qed.

Lemma for_each_raise {A B} (f : A -> result B) (l : list A) (x : A) (e : exn) :
  In x l -> f x = Raise e -> exists e', for_each f l = Raise e'.
Proof.
  induction l as [|y l IH]; simpl; [tauto|].
  intros [->|Hin] Hx.
  - rewrite Hx. simpl. eauto.
  - destruct (f y); simpl; [|eauto].
    destruct (IH Hin Hx) as [e' ->]. simpl. eauto.
Qed.

(** ** The order of stored values *)

Module SqlFacts.
Import Sql.

Lemma lex_leb_total (a b : list N) : lex_leb a b = true \/ lex_leb b a = true.
Proof.
  revert b. induction a as [|x a IH]; intros [|y b]; simpl; auto.
  destruct (N.ltb_spec x y), (N.ltb_spec y x), (N.eqb_spec x y), (N.eqb_spec y x);
    auto; lia.
Qed.

Lemma lex_leb_trans (a b c : list N) :
  lex_leb a b = true -> lex_leb b c = true -> lex_leb a c = true.
Proof.
  revert b c. induction a as [|x a IH]; intros [|y b] [|z c]; simpl; auto;
    try discriminate.
  destruct (N.ltb_spec x y), (N.ltb_spec y z), (N.ltb_spec x z),
    (N.eqb_spec x y), (N.eqb_spec y z), (N.eqb_spec x z);
    try discriminate; try lia; eauto.
Qed.

Lemma sql_leb_total (a b : sqlval) : sql_leb a b = true \/ sql_leb b a = true.
Proof.
  destruct a, b; simpl; auto using lex_leb_total.
  destruct (Z.leb_spec z z0), (Z.leb_spec z0 z); auto; lia.
Qed.

Lemma sql_leb_trans (a b c : sqlval) :
  sql_leb a b = true -> sql_leb b c = true -> sql_leb a c = true.
Proof.
  destruct a, b, c; simpl; auto; try discriminate; eauto using lex_leb_trans.
  rewrite !Z.leb_le. lia.
Qed.

#[global] Instance desc_total k : Total (desc k).
Proof. intros r1 r2. unfold desc. destruct (sql_leb_total (col k r1) (col k r2)); auto. Qed.

#[global] Instance desc_trans k : Transitive (desc k).
Proof. intros r1 r2 r3. unfold desc. eauto using sql_leb_trans. Qed.

Lemma StronglySorted_take {A} (R : relation A) (n : nat) (l : list A) :
  StronglySorted R l -> StronglySorted R (take n l).
Proof.
  intros H. rewrite <- (take_drop n l) in H.
  eapply StronglySorted_app_1_l, H.
Qed.

Lemma col_project (i : nat) (sel : list nat) (r : row) :
  col 0 (project (i :: sel) r) = col i r.
Proof. reflexivity. Qed.

Lemma apply_limit_sorted (R : relation row) n rows :
  StronglySorted R rows -> StronglySorted R (apply_limit n rows).
Proof. destruct n; simpl; auto using StronglySorted_take. Qed.

Lemma apply_limit_length n rows m :
  n = Some m -> length (apply_limit n rows) <= m.
Proof. intros ->. simpl. rewrite length_take. lia. Qed.

(** LIMIT bounds what a statement returns. *)
Lemma eval_limit (d : database) (q : query) (rows : list row) (m : nat) :
  q_limit q = Some m -> eval d q = Ok rows -> length rows <= m.
Proof.
  intros Hm H. unfold eval in H.
  repeat (apply bind_ok in H as (? & _ & H)).
  injection H as <-. rewrite length_map. by apply apply_limit_length.
Qed.

(** A statement whose first result column is its ORDER BY ... DESC column
    returns rows that descend in column 0. *)
Lemma eval_sorted (d : database) (q : query) (rows : list row) (cs : list cref) :
  q_select q = q_order_by_desc q :: cs ->
  eval d q = Ok rows -> StronglySorted (desc 0) rows.
Proof.
  intros Hsel H. unfold eval in H.
  apply bind_ok in H as (rel0 & _ & H).
  apply bind_ok in H as (rel & _ & H).
  apply bind_ok in H as (sel & Hs & H).
  apply bind_ok in H as (rows' & _ & H).
  apply bind_ok in H as (k & Hk & H).
  injection H as <-.
  rewrite Hsel in Hs. simpl in Hs. rewrite Hk in Hs. simpl in Hs.
  apply bind_ok in Hs as (sel' & _ & Hs). injection Hs as <-.
  apply (StronglySorted_fmap (project (k :: sel')) (desc k) (desc 0)).
  - intros r1 r2 Hr. unfold desc. by rewrite !col_project.
  - apply apply_limit_sorted, StronglySorted_merge_sort; apply _.
Qed.

End SqlFacts.

(** ** Classification *)

Lemma py_in_elem_of (name : string) (tables : list string) :
  py_in name tables = true <-> name ∈ tables.
Proof.
  unfold py_in. rewrite existsb_exists, list_elem_of_In. split.
  - intros (x & Hx & Heq). apply String.eqb_eq in Heq. by subst.
  - intros H. exists name. split; [done | apply String.eqb_refl].
Qed.

Lemma cons_subseteq_iff {A} (x : A) (l t : list A) :
  x :: l ⊆ t <-> x ∈ t /\ l ⊆ t.
Proof.
  split.
  - intros H. split; [apply H; left | intros y Hy; apply H; by right].
  - intros [Hx Hl] y Hy. apply elem_of_cons in Hy as [->|Hy]; auto.
Qed.

(** C1. On a file that lists its tables, the classifier answers by the
    first signature the table names include: urls, visits and downloads
    give 'chrome'; else moz_places and moz_historyvisits give 'firefox';
    else history_items and history_visits give 'safari'; else 'unknown'. *)
Theorem detect_browser_type_precedence
  (fs : filesystem) (path : string) (d : Sql.database) :
  fs path = SqliteFile d ->
  let tables := List.map Sql.tbl_name d in
  let chromium := ["urls"; "visits"; "downloads"] ⊆ tables in
  let gecko := ["moz_places"; "moz_historyvisits"] ⊆ tables in
  let webkit := ["history_items"; "history_visits"] ⊆ tables in
  (chromium -> detect_browser_type fs path = Ok "chrome") /\
  (~ chromium -> gecko -> detect_browser_type fs path = Ok "firefox") /\
  (~ chromium -> ~ gecko -> webkit ->
   detect_browser_type fs path = Ok "safari") /\
  (~ chromium -> ~ gecko -> ~ webkit ->
   detect_browser_type fs path = Ok "unknown").
Proof.
  intros Hfs tables chromium gecko webkit.
  assert (Hc : py_in "urls" tables && py_in "visits" tables
               && py_in "downloads" tables = true <-> chromium).
  { unfold chromium. rewrite !cons_subseteq_iff, !andb_true_iff, !py_in_elem_of.
    pose proof (list_subseteq_nil tables). tauto. }
  assert (Hg : py_in "moz_places" tables && py_in "moz_historyvisits" tables
               = true <-> gecko).
  { unfold gecko. rewrite !cons_subseteq_iff, !andb_true_iff, !py_in_elem_of.
    pose proof (list_subseteq_nil tables). tauto. }
  assert (Hw : py_in "history_items" tables && py_in "history_visits" tables
               = true <-> webkit).
  { unfold webkit. rewrite !cons_subseteq_iff, !andb_true_iff, !py_in_elem_of.
    pose proof (list_subseteq_nil tables). tauto. }
  unfold detect_browser_type, connect. rewrite Hfs. cbn [bind table_names].
  fold tables.
  destruct (py_in "urls" tables && py_in "visits" tables
            && py_in "downloads" tables);
  destruct (py_in "moz_places" tables && py_in "moz_historyvisits" tables);
  destruct (py_in "history_items" tables && py_in "history_visits" tables);
  cbn [try_except]; intuition congruence.
Qed.

Lemma detect_browser_type_precedence_witness :
  detect_browser_type Samples.fs "places.sqlite" = Ok "firefox".
Proof.
  refine (proj1 (proj2 (detect_browser_type_precedence
            Samples.fs "places.sqlite" Samples.firefox_db eq_refl)) _ _).
  - intros H. specialize (H "urls" ltac:(left)).
    vm_compute in H. repeat (apply elem_of_cons in H as [H|H]; [discriminate|]).
    by apply elem_of_nil in H.
  - intros x Hx. vm_compute.
    repeat (apply elem_of_cons in Hx as [->|Hx]; [by repeat constructor|]).
    by apply elem_of_nil in Hx.
Defined.

(** C2. A file that cannot be opened, or whose tables cannot be listed, is
    classified 'unknown' without an exception, and the parser built on it
    returns the empty list from all four operations. *)
Theorem unreadable_artifact_degrades (fs : filesystem) (path : string) :
  fs path = Unopenable \/ fs path = NotADatabase ->
  detect_browser_type fs path = Ok "unknown" /\
  exists self, init fs path = Ok self /\
    get_history_data fs self = Ok [] /\
    get_downloads_data fs self = Ok [] /\
    get_visits_data fs self = Ok [] /\
    get_search_terms_data fs self = Ok [].
Proof.
  intros Hfs.
  assert (Hd : detect_browser_type fs path = Ok "unknown").
  { unfold detect_browser_type, connect. by destruct Hfs as [-> | ->]. }
  split; [exact Hd|].
  exists {| db_path := path; browser_type := "unknown" |}.
  unfold init. rewrite Hd. split; [reflexivity|].
  unfold get_history_data, get_downloads_data, get_visits_data,
    get_search_terms_data, connect; cbn [db_path browser_type].
  by destruct Hfs as [-> | ->].
Qed.

Lemma unreadable_artifact_degrades_witness :
  detect_browser_type Samples.fs "notes.txt" = Ok "unknown" /\
  exists self, init Samples.fs "notes.txt" = Ok self /\
    get_history_data Samples.fs self = Ok [] /\
    get_downloads_data Samples.fs self = Ok [] /\
    get_visits_data Samples.fs self = Ok [] /\
    get_search_terms_data Samples.fs self = Ok [].
Proof.
  apply (unreadable_artifact_degrades Samples.fs "notes.txt").
  right. reflexivity.
Defined.

(** ** Timestamp converters *)

(** C7. Each of the three converters maps the raw value 0 to the string
    "Never". *)
Theorem zero_is_never :
  chrome_to_timestamp (PyInt 0) = Ok (PyStr "Never") /\
  webkit_to_timestamp (PyInt 0) = Ok (PyStr "Never") /\
  firefox_to_timestamp (PyInt 0) = Ok (PyStr "Never").
Proof. repeat split. Qed.

Lemma add_unrepresentable (epoch td : Z) :
  unrepresentable epoch td -> Datetime.add epoch td = Raise OverflowError.
Proof.
  unfold unrepresentable, Datetime.add, Datetime.timedelta_us,
    Datetime.representable.
  intros H. destruct (_ <? _)%Z; cbn [bind]; [reflexivity|].
  destruct (Z.ltb_spec 0 ((epoch + td) / Datetime.DAY_US)),
    (Z.leb_spec ((epoch + td) / Datetime.DAY_US) Datetime.MAXORDINAL);
    cbn [andb]; try reflexivity; lia.
Qed.

Lemma epoch_representable (epoch : Z) :
  Datetime.representable epoch = true -> ~ unrepresentable epoch 0.
Proof.
  unfold unrepresentable, Datetime.representable. rewrite Z.add_0_r.
  rewrite andb_true_iff, Z.ltb_lt, Z.leb_le. lia.
Qed.

Lemma chrome_unrepresentable (n : Z) :
  unrepresentable (Datetime.datetime 1601 1 1) n ->
  chrome_to_timestamp (PyInt n) = Raise OverflowError.
Proof.
  intros H. unfold chrome_to_timestamp, py_eq_zero. cbn [py_as_int].
  destruct (Z.eqb_spec n 0) as [->|Hn].
  - by apply epoch_representable in H.
  - unfold Datetime.timedelta_microseconds. cbn [py_as_int].
    unfold Datetime.timedelta_us at 1.
    destruct (_ <? _)%Z; cbn [bind]; [reflexivity|].
    by rewrite add_unrepresentable.
Qed.

Lemma webkit_unrepresentable (n : Z) :
  unrepresentable (Datetime.datetime 2001 1 1) (n * 1000000) ->
  webkit_to_timestamp (PyInt n) = Raise OverflowError.
Proof.
  intros H. unfold webkit_to_timestamp, py_eq_zero. cbn [py_as_int].
  destruct (Z.eqb_spec n 0) as [->|Hn].
  - by apply epoch_representable in H.
  - unfold Datetime.timedelta_seconds. cbn [py_as_int].
    unfold Datetime.timedelta_us at 1.
    destruct (_ <? _)%Z; cbn [bind]; [reflexivity|].
    by rewrite add_unrepresentable.
Qed.

Lemma firefox_unrepresentable (n : Z) :
  unrepresentable (Datetime.datetime 1970 1 1) (gecko_micros n) ->
  exists e, firefox_to_timestamp (PyInt n) = Raise e.
Proof.
  intros H. unfold firefox_to_timestamp, py_eq_zero. cbn [py_as_int].
  destruct (Z.eqb_spec n 0) as [->|Hn].
  - by apply epoch_representable in H.
  - unfold py_truediv, Float64.truediv. cbn [py_as_int].
    destruct (Float64.finite _); cbn [bind]; [|eauto].
    unfold unrepresentable, gecko_micros in H. unfold Datetime.fromtimestamp.
    destruct (Float64.to_timeval _) as [sec us].
    rewrite Z.add_assoc in H. unfold Datetime.representable.
    set (day := ((Datetime.datetime 1970 1 1 + sec * 1000000 + us)
                 / Datetime.DAY_US)%Z) in *.
    destruct (Z.ltb_spec 0 day), (Z.leb_spec day Datetime.MAXORDINAL);
      cbn [andb bind]; eauto; lia.
Qed.

Lemma for_each_raises {A B} (f : A -> result B) (l : list A) (x : A) :
  In x l -> (exists e, f x = Raise e) -> exists e', for_each f l = Raise e'.
Proof. intros Hin [e He]. eapply for_each_raise; eauto. Qed.

Lemma chrome_download_record_raises (row : list pyval) (e : exn) :
  chrome_to_timestamp (item 0 row) = Raise e
  \/ chrome_to_timestamp (item 1 row) = Raise e ->
  exists e', chrome_download_record row = Raise e'.
Proof.
  intros H. unfold chrome_download_record. cbv zeta.
  destruct (if py_truthy (py_or (item 2 row) (PyStr ""))
            then basename (py_or (item 2 row) (PyStr ""))
            else Ok (PyStr "")) as [f|ef]; cbn [bind]; [|eauto].
  destruct (chrome_to_timestamp (item 0 row)) as [t0|e0]; cbn [bind]; [|eauto].
  destruct H as [H|H]; [discriminate H|]. rewrite H. cbn [bind]. eauto.
Qed.

Lemma firefox_download_record_raises (row : list pyval) (e : exn) :
  firefox_to_timestamp (item 0 row) = Raise e
  \/ firefox_to_timestamp (item 1 row) = Raise e ->
  exists e', firefox_download_record row = Raise e'.
Proof.
  intros H. unfold firefox_download_record.
  destruct (firefox_to_timestamp (item 0 row)) as [t0|e0]; cbn [bind]; [|eauto].
  destruct H as [H|H]; [discriminate H|]. rewrite H. cbn [bind]. eauto.
Qed.

(** C3 (amended). A raw timestamp whose instant the date library cannot
    represent makes each converter raise instead of returning "Never";
    and in each of the four extraction operations one fetched row whose
    timestamp makes the converter raise ends the call, which returns the
    empty list. *)
Theorem unrepresentable_timestamp_raises :
  (forall n, unrepresentable (Datetime.datetime 1601 1 1) n ->
     chrome_to_timestamp (PyInt n) = Raise OverflowError) /\
  (forall n, unrepresentable (Datetime.datetime 2001 1 1) (n * 1000000) ->
     webkit_to_timestamp (PyInt n) = Raise OverflowError) /\
  (forall n, unrepresentable (Datetime.datetime 1970 1 1) (gecko_micros n) ->
     exists e, firefox_to_timestamp (PyInt n) = Raise e) /\
  (forall fs self conn results row e,
     connect fs (db_path self) = Ok conn ->
     In row results ->
     (browser_type self = "chrome"
      /\ execute conn chrome_history_query = Ok results
      /\ chrome_to_timestamp (item 0 row) = Raise e)
     \/ (browser_type self = "firefox"
         /\ execute conn firefox_history_query = Ok results
         /\ firefox_to_timestamp (item 0 row) = Raise e)
     \/ (browser_type self = "safari"
         /\ execute conn safari_history_query = Ok results
         /\ webkit_to_timestamp (item 0 row) = Raise e) ->
     get_history_data fs self = Ok []) /\
  (forall fs self conn results row e,
     connect fs (db_path self) = Ok conn ->
     In row results ->
     (browser_type self = "chrome"
      /\ execute conn chrome_downloads_query = Ok results
      /\ (chrome_to_timestamp (item 0 row) = Raise e
          \/ chrome_to_timestamp (item 1 row) = Raise e))
     \/ (browser_type self = "firefox"
         /\ execute conn firefox_downloads_query = Ok results
         /\ (firefox_to_timestamp (item 0 row) = Raise e
             \/ firefox_to_timestamp (item 1 row) = Raise e)) ->
     get_downloads_data fs self = Ok []) /\
  (forall fs self conn results row e,
     connect fs (db_path self) = Ok conn ->
     In row results ->
     (browser_type self = "chrome"
      /\ execute conn chrome_visits_query = Ok results
      /\ chrome_to_timestamp (item 0 row) = Raise e)
     \/ (browser_type self = "firefox"
         /\ execute conn firefox_visits_query = Ok results
         /\ firefox_to_timestamp (item 0 row) = Raise e) ->
     get_visits_data fs self = Ok []) /\
  (forall fs self conn results row e,
     connect fs (db_path self) = Ok conn ->
     In row results ->
     browser_type self = "chrome" ->
     execute conn chrome_search_terms_query = Ok results ->
     chrome_to_timestamp (item 0 row) = Raise e ->
     get_search_terms_data fs self = Ok []).
Proof.
  split; [exact chrome_unrepresentable|].
  split; [exact webkit_unrepresentable|].
  split; [exact firefox_unrepresentable|].
  split; [|split; [|split]].
  - intros fs self conn results row e Hconn Hin H.
    unfold get_history_data. rewrite Hconn. cbn [bind].
    destruct H as [(-> & Hx & Ht) | [(-> & Hx & Ht) | (-> & Hx & Ht)]];
      cbn [String.eqb Ascii.eqb Bool.eqb]; rewrite Hx; cbn [bind];
      match goal with
      | |- context [for_each ?mk results] =>
          destruct (for_each_raise mk results row e Hin) as [e' ->];
          [|reflexivity]
      end;
      unfold chrome_history_record, firefox_history_record,
        safari_history_record;
      rewrite Ht; reflexivity.
  - intros fs self conn results row e Hconn Hin H.
    unfold get_downloads_data. rewrite Hconn. cbn [bind].
    destruct H as [(-> & Hx & Ht) | (-> & Hx & Ht)];
      cbn [String.eqb Ascii.eqb Bool.eqb]; rewrite Hx; cbn [bind].
    + destruct (for_each_raises chrome_download_record results row Hin)
        as [e' ->]; [|reflexivity].
      eapply chrome_download_record_raises, Ht.
    + destruct (for_each_raises firefox_download_record results row Hin)
        as [e' ->]; [|reflexivity].
      eapply firefox_download_record_raises, Ht.
  - intros fs self conn results row e Hconn Hin H.
    unfold get_visits_data. rewrite Hconn. cbn [bind].
    destruct H as [(-> & Hx & Ht) | (-> & Hx & Ht)];
      cbn [String.eqb Ascii.eqb Bool.eqb]; rewrite Hx; cbn [bind];
      match goal with
      | |- context [for_each ?mk results] =>
          destruct (for_each_raise mk results row e Hin) as [e' ->];
          [|reflexivity]
      end;
      unfold chrome_visit_record, firefox_visit_record;
      rewrite Ht; reflexivity.
  - intros fs self conn results row e Hconn Hin Hbt Hx Ht.
    unfold get_search_terms_data. rewrite Hconn, Hbt. cbn [bind].
    cbn [String.eqb Ascii.eqb Bool.eqb]. rewrite Hx. cbn [bind].
    destruct (for_each_raise chrome_search_term_record results row e Hin)
      as [e' ->]; [|reflexivity].
    unfold chrome_search_term_record. rewrite Ht. reflexivity.
Qed.

(** C3 (counterexample). At the raw value 2^62 no converter returns
    "Never": each raises, and the chromium file holding that value in one
    of its two url rows yields no history record at all. *)
Lemma never_on_overflow_counterexample :
  unrepresentable (Datetime.datetime 1601 1 1) (2 ^ 62) /\
  chrome_to_timestamp (PyInt (2 ^ 62)) = Raise OverflowError /\
  webkit_to_timestamp (PyInt (2 ^ 62)) = Raise OverflowError /\
  firefox_to_timestamp (PyInt (2 ^ 62)) = Raise ValueError /\
  init Samples.fs "History-far-future" = Ok Samples.far_future /\
  get_history_data Samples.fs Samples.far_future = Ok [].
Proof.
  split; [right; reflexivity|].
  repeat split; vm_compute; reflexivity.
Qed.

Lemma unrepresentable_timestamp_raises_witness :
  chrome_to_timestamp (PyInt (2 ^ 62)) = Raise OverflowError.
Proof.
  apply (proj1 unrepresentable_timestamp_raises (2 ^ 62)%Z).
  right. reflexivity.
Defined.

(** ** Extraction *)

Lemma for_each_In {A B} (f : A -> result B) (l : list A) (ys : list B) (y : B) :
  for_each f l = Ok ys -> In y ys -> exists x, In x l /\ f x = Ok y.
Proof.
  intros H. apply for_each_Forall2 in H.
  induction H as [|x y' l ys Hxy _ IH]; simpl; [tauto|].
  intros [<-|Hin]; [eauto|]. destruct (IH Hin) as (x' & ? & ?). eauto.
Qed.

Lemma run_branch_inv {R} conn q (mk : list pyval -> result R) o :
  run_branch conn q mk = Ok o ->
  exists d rows data,
    conn = ConnDb d /\ Sql.eval d q = Ok rows /\
    for_each mk (List.map (List.map Sql.to_py) rows) = Ok data /\ o = Some data.
Proof.
  unfold run_branch. intros H.
  apply bind_ok in H as (results & Hx & H).
  apply bind_ok in H as (data & Hd & H). injection H as <-.
  destruct conn as [|d]; [discriminate|]. simpl in Hx.
  apply bind_ok in Hx as (rows & Hrows & Hx). injection Hx as <-.
  eauto 10.
Qed.

Lemma connect_db fs path d :
  connect fs path = Ok (ConnDb d) -> fs path = SqliteFile d.
Proof. unfold connect. destruct (fs path); congruence. Qed.

Lemma get_visits_data_inv fs self data :
  get_visits_data fs self = Ok data ->
  data = [] \/
  exists d rows,
    fs (db_path self) = SqliteFile d /\
    ((browser_type self = "chrome"
      /\ Sql.eval d chrome_visits_query = Ok rows
      /\ for_each chrome_visit_record (List.map (List.map Sql.to_py) rows)
         = Ok data)
     \/ (browser_type self = "firefox"
         /\ Sql.eval d firefox_visits_query = Ok rows
         /\ for_each firefox_visit_record (List.map (List.map Sql.to_py) rows)
            = Ok data)).
Proof.
  unfold get_visits_data. intros H.
  apply try_except_inv in H as [H|H]; [|by left].
  apply bind_ok in H as (conn & Hconn & H).
  apply bind_ok in H as (o & Hb & H).
  destruct o as [data'|]; [injection H as -> | discriminate].
  destruct (String.eqb_spec (browser_type self) "chrome") as [Hc|_].
  { apply (run_branch_inv conn _ chrome_visit_record) in Hb
      as (d & rows & data' & -> & He & Hf & [= ->]).
    apply connect_db in Hconn. right. exists d, rows. eauto. }
  destruct (String.eqb_spec (browser_type self) "firefox") as [Hf|_].
  { apply (run_branch_inv conn _ firefox_visit_record) in Hb
      as (d & rows & data' & -> & He & Hf' & [= ->]).
    apply connect_db in Hconn. right. exists d, rows. eauto 10. }
  injection Hb as <-. by left.
Qed.

Lemma item_fetched (i : nat) (row : Sql.row) :
  item i (List.map Sql.to_py row) = Sql.to_py (Sql.col i row).
Proof.
  unfold item, Sql.col. change PyNone with (Sql.to_py Sql.SqlNull).
  apply List.map_nth.
Qed.

Lemma chrome_timestamp_int (v : Sql.sqlval) (t : pyval) :
  chrome_to_timestamp (Sql.to_py v) = Ok t -> exists z, v = Sql.SqlInt z.
Proof. destruct v; try discriminate. eauto. Qed.

Lemma firefox_timestamp_int (v : Sql.sqlval) (t : pyval) :
  firefox_to_timestamp (Sql.to_py v) = Ok t -> exists z, v = Sql.SqlInt z.
Proof. destruct v; try discriminate. eauto. Qed.

Lemma sorted_newer_or_same (rows : list Sql.row) :
  StronglySorted (Sql.desc 0) rows ->
  Forall (fun r => exists t, Sql.col 0 r = Sql.SqlInt t) rows ->
  StronglySorted newer_or_same rows.
Proof.
  induction 1 as [|r rows Hs IH Hr]; intros Hint; [constructor|].
  apply Forall_cons in Hint as [[t Ht] Hint].
  constructor; [auto|].
  rewrite Forall_forall in Hr, Hint |- *.
  intros r' Hin. destruct (Hint r' Hin) as [t' Ht'].
  specialize (Hr r' Hin). unfold Sql.desc in Hr. rewrite Ht, Ht' in Hr.
  exists t, t'. repeat split; auto. by apply Z.leb_le.
Qed.

Lemma Forall2_Forall_l {A B} (P : A -> B -> Prop) (Q : A -> Prop) l ys :
  (forall x y, P x y -> Q x) -> Forall2 P l ys -> Forall Q l.
Proof. intros HPQ. induction 1; constructor; eauto. Qed.

(** C4. The visits operation returns at most 1000 records.  When it returns
    any, they are the rows of the family's statement mapped in order; that
    statement carries LIMIT 1000, so the rows themselves number at most
    1000, and they descend by the visit timestamp in their first column. *)
Theorem visits_capped_newest_first
  (fs : filesystem) (self : BrowserHistoryParser) :
  exists data,
    get_visits_data fs self = Ok data /\
    length data <= 1000 /\
    (data = [] \/
     exists d q mk rows,
       fs (db_path self) = SqliteFile d /\
       ((browser_type self = "chrome"
         /\ q = chrome_visits_query /\ mk = chrome_visit_record)
        \/ (browser_type self = "firefox"
            /\ q = firefox_visits_query /\ mk = firefox_visit_record)) /\
       Sql.q_limit q = Some 1000 /\
       Sql.eval d q = Ok rows /\
       length rows <= 1000 /\
       StronglySorted newer_or_same rows /\
       Forall2 (fun row r => mk (List.map Sql.to_py row) = Ok r) rows data).
Proof.
  assert (exists data, get_visits_data fs self = Ok data) as [data H].
  { unfold get_visits_data. apply try_except_total. }
  exists data. split; [exact H|].
  apply get_visits_data_inv in H as [-> | (d & rows & Hfs & H)].
  { split; [simpl; lia | by left]. }
  assert (forall q (mk : list pyval -> result VisitRecord) cs,
    Sql.q_limit q = Some 1000 ->
    Sql.q_select q = Sql.q_order_by_desc q :: cs ->
    (forall row r, mk (List.map Sql.to_py row) = Ok r ->
       exists t, Sql.col 0 row = Sql.SqlInt t) ->
    Sql.eval d q = Ok rows ->
    for_each mk (List.map (List.map Sql.to_py) rows) = Ok data ->
    length data <= 1000 /\ length rows <= 1000
    /\ StronglySorted newer_or_same rows
    /\ Forall2 (fun row r => mk (List.map Sql.to_py row) = Ok r) rows data)
    as Hgen.
  { intros q mk cs Hlim Hsel Hint He Hf.
    apply for_each_Forall2, Forall2_fmap_l in Hf.
    pose proof (SqlFacts.eval_limit d q rows 1000 Hlim He) as Hlen.
    rewrite <- (Forall2_length _ _ _ Hf).
    repeat split; auto.
    apply sorted_newer_or_same.
    - eapply SqlFacts.eval_sorted; eauto.
    - eapply Forall2_Forall_l; [|exact Hf]. exact Hint. }
  destruct H as [(Hbt & He & Hf) | (Hbt & He & Hf)].
  - destruct (Hgen chrome_visits_query chrome_visit_record _
                eq_refl eq_refl) with (3 := Hf) as (? & ? & ? & ?); auto.
    { intros row r Hr. unfold chrome_visit_record in Hr.
      apply bind_ok in Hr as (t & Ht & _). rewrite item_fetched in Ht.
      eapply chrome_timestamp_int, Ht. }
    split; [done|]. right.
    exists d, chrome_visits_query, chrome_visit_record, rows. eauto 12.
  - destruct (Hgen firefox_visits_query firefox_visit_record _
                eq_refl eq_refl) with (3 := Hf) as (? & ? & ? & ?); auto.
    { intros row r Hr. unfold firefox_visit_record in Hr.
      apply bind_ok in Hr as (t & Ht & _). rewrite item_fetched in Ht.
      eapply firefox_timestamp_int, Ht. }
    split; [done|]. right.
    exists d, firefox_visits_query, firefox_visit_record, rows. eauto 12.
Qed.

(** C5. Where the detected family has no branch for a record family, the
    operation returns the empty list and raises nothing: search terms on
    'firefox' and 'safari', downloads and visits on 'safari', and all four
    operations on 'unknown'. *)
Theorem unsupported_pairs_empty (fs : filesystem) (self : BrowserHistoryParser) :
  (browser_type self = "firefox" ->
   get_search_terms_data fs self = Ok []) /\
  (browser_type self = "safari" ->
   get_search_terms_data fs self = Ok [] /\
   get_downloads_data fs self = Ok [] /\
   get_visits_data fs self = Ok []) /\
  (browser_type self = "unknown" ->
   get_history_data fs self = Ok [] /\
   get_downloads_data fs self = Ok [] /\
   get_visits_data fs self = Ok [] /\
   get_search_terms_data fs self = Ok []).
Proof.
  unfold get_history_data, get_downloads_data, get_visits_data,
    get_search_terms_data, connect.
  split; [|split]; intros ->; repeat split;
    destruct (fs (db_path self)); reflexivity.
Qed.

Lemma unsupported_pairs_empty_witness :
  get_search_terms_data Samples.fs Samples.safari = Ok [] /\
  get_downloads_data Samples.fs Samples.safari = Ok [] /\
  get_visits_data Samples.fs Samples.safari = Ok [].
Proof.
  apply (proj1 (proj2 (unsupported_pairs_empty Samples.fs Samples.safari))).
  reflexivity.
Defined.

(** C6. The chromium visit mapper labels the transition codes 0 to 8 as
    Link, Typed, Auto Bookmark, Auto Subframe, Manual Subframe, Generated,
    Start Page, Form Submit and Reload, and every other code, like every
    value that is no integer, as Unknown. *)
Theorem chrome_transition_labels :
  (forall row r, chrome_visit_record row = Ok r ->
     v_transition r = PyStr (transition_types_get (item 3 row))) /\
  List.map (fun n => transition_types_get (PyInt n)) [0; 1; 2; 3; 4; 5; 6; 7; 8]%Z
  = ["Link"; "Typed"; "Auto Bookmark"; "Auto Subframe"; "Manual Subframe";
     "Generated"; "Start Page"; "Form Submit"; "Reload"] /\
  (forall n, (n < 0 \/ 8 < n)%Z -> transition_types_get (PyInt n) = "Unknown") /\
  (forall v, py_as_int v = None -> transition_types_get v = "Unknown").
Proof.
  split; [|split; [|split]].
  - intros row r H. unfold chrome_visit_record in H.
    apply bind_ok in H as (t & _ & H). by injection H as <-.
  - vm_compute. reflexivity.
  - intros n Hn. unfold transition_types_get, transition_types.
    cbn [py_as_int]. rewrite !lookup_insert_ne by lia.
    by rewrite lookup_empty.
  - intros v Hv. unfold transition_types_get. by rewrite Hv.
Qed.

Lemma chrome_transition_labels_witness :
  transition_types_get (PyInt 805306368) = "Unknown".
Proof.
  apply (proj1 (proj2 (proj2 chrome_transition_labels)) 805306368%Z).
  right. reflexivity.
Defined.

(** C8 (counterexample). A gecko visit row whose visit type is present
    and equal to 0 is labelled Unknown, not Type 0. *)
Lemma gecko_type_zero_counterexample :
  exists row r,
    item 3 row = PyInt 0 /\
    firefox_visit_record row = Ok r /\
    v_transition r = PyStr "Unknown" /\
    v_transition r <> PyStr ("Type " ++ py_format (PyInt 0)).
Proof.
  exists [PyInt 1600000001000000; PyStr "https://b.example/"; PyStr "B";
          PyInt 0; PyNone; PyNone].
  eexists. split; [reflexivity|]. split; [vm_compute; reflexivity|].
  split; [reflexivity | discriminate].
Qed.

(** C8 (amended). In gecko visit extraction a row whose visit type is a
    nonzero integer n is labelled "Type n" in decimal, and a row whose
    visit type is absent or 0 is labelled Unknown. *)
Theorem gecko_transition_label (row : list pyval) (r : VisitRecord) :
  firefox_visit_record row = Ok r ->
  (forall n, item 3 row = PyInt n -> n <> 0%Z ->
     v_transition r = PyStr ("Type " ++ Datetime.dec n)) /\
  (item 3 row = PyNone \/ item 3 row = PyInt 0 ->
     v_transition r = PyStr "Unknown").
Proof.
  intros H. unfold firefox_visit_record in H.
  apply bind_ok in H as (t & _ & H). injection H as <-. cbn [v_transition].
  split.
  - intros n -> Hn. cbn [py_truthy py_format].
    destruct (Z.eqb_spec n 0); [contradiction | reflexivity].
  - intros [-> | ->]; reflexivity.
Qed.

Lemma gecko_transition_label_witness :
  v_transition Samples.gecko_record = PyStr "Type 1".
Proof.
  apply (proj1 (gecko_transition_label Samples.gecko_row Samples.gecko_record
                  eq_refl) 1%Z); [reflexivity | lia].
Defined.

Lemma get_history_data_inv fs self data :
  get_history_data fs self = Ok data ->
  data = [] \/
  exists results,
    (browser_type self = "chrome"
     /\ for_each chrome_history_record results = Ok data)
    \/ (browser_type self = "firefox"
        /\ for_each firefox_history_record results = Ok data)
    \/ (browser_type self = "safari"
        /\ for_each safari_history_record results = Ok data).
Proof.
  unfold get_history_data. intros H.
  apply try_except_inv in H as [H|H]; [|by left].
  apply bind_ok in H as (conn & _ & H).
  apply bind_ok in H as (o & Hb & H).
  destruct o as [data'|]; [injection H as -> | discriminate].
  destruct (String.eqb_spec (browser_type self) "chrome");
    [|destruct (String.eqb_spec (browser_type self) "firefox");
      [|destruct (String.eqb_spec (browser_type self) "safari");
        [|discriminate]]];
  apply bind_ok in Hb as (results & _ & Hb);
  apply bind_ok in Hb as (data' & Hf & Hb); injection Hb as ->;
  right; exists results; auto.
Qed.

(** C9 (counterexample). The history records of the sample chromium file
    carry the strings Yes and No in is_hidden, which are not booleans. *)
Lemma is_hidden_boolean_counterexample :
  exists data r,
    get_history_data Samples.fs Samples.chrome = Ok data /\
    In r data /\
    h_is_hidden r = PyStr "Yes" /\
    ~ exists b, h_is_hidden r = PyBool b.
Proof.
  eexists. eexists. split; [vm_compute; reflexivity|].
  split; [left; reflexivity|].
  split; [reflexivity|]. intros [b Hb]. discriminate Hb.
Qed.

(** C9 (amended). Every record the history operation returns, for every
    browser family, has an is_hidden field that is the string Yes or the
    string No; for 'safari' it is No. *)
Theorem is_hidden_yes_or_no
  (fs : filesystem) (self : BrowserHistoryParser)
  (data : list HistoryRecord) (r : HistoryRecord) :
  get_history_data fs self = Ok data ->
  In r data ->
  (h_is_hidden r = PyStr "Yes" \/ h_is_hidden r = PyStr "No") /\
  (browser_type self = "safari" -> h_is_hidden r = PyStr "No").
Proof.
  intros H Hin.
  apply get_history_data_inv in H as [-> | (results & H)]; [destruct Hin|].
  destruct H as [[Hbt H] | [[Hbt H] | [Hbt H]]];
    destruct (for_each_In _ _ _ _ H Hin) as (row & _ & Hr);
    apply bind_ok in Hr as (t & _ & Hr); injection Hr as <-;
    cbn [h_is_hidden]; rewrite Hbt; unfold yes_no;
    (split; [try destruct (py_truthy _); auto | try discriminate; auto]).
Qed.

Lemma is_hidden_yes_or_no_witness :
  (h_is_hidden Samples.hidden_record = PyStr "Yes"
   \/ h_is_hidden Samples.hidden_record = PyStr "No") /\
  (browser_type Samples.chrome = "safari" ->
   h_is_hidden Samples.hidden_record = PyStr "No").
Proof.
  apply (is_hidden_yes_or_no Samples.fs Samples.chrome
           [Samples.hidden_record; Samples.shown_record] Samples.hidden_record).
  - vm_compute. reflexivity.
  - left. reflexivity.
Defined.

(** C10. Every record the visits operation returns has the segment name
    that goes with the detected family, 'Chrome History' for 'chrome' and
    'Firefox History' for 'firefox', whatever the artifact holds; no other
    family yields a visit record. *)
Theorem segment_name_by_family
  (fs : filesystem) (self : BrowserHistoryParser)
  (data : list VisitRecord) (r : VisitRecord) :
  get_visits_data fs self = Ok data ->
  In r data ->
  (browser_type self = "chrome" /\ v_segment_name r = PyStr "Chrome History")
  \/ (browser_type self = "firefox"
      /\ v_segment_name r = PyStr "Firefox History").
Proof.
  intros H Hin.
  apply get_visits_data_inv in H as [-> | (d & rows & _ & H)]; [destruct Hin|].
  destruct H as [(Hbt & _ & H) | (Hbt & _ & H)];
    destruct (for_each_In _ _ _ _ H Hin) as (row & _ & Hr);
    apply bind_ok in Hr as (t & _ & Hr); injection Hr as <-; auto.
Qed.

Lemma segment_name_by_family_witness :
  (browser_type Samples.firefox = "chrome"
   /\ v_segment_name Samples.gecko_record = PyStr "Chrome History")
  \/ (browser_type Samples.firefox = "firefox"
      /\ v_segment_name Samples.gecko_record = PyStr "Firefox History").
Proof.
  eapply (segment_name_by_family Samples.fs Samples.firefox _
            Samples.gecko_record).
  - vm_compute. reflexivity.
  - right. right. left. reflexivity.
Defined.

(** * Further properties *)

(** ** The range of the converters *)

Lemma representable_bounds (x : Z) :
  Datetime.representable x = true <->
  (86400000000 <= x < 315537984000000000)%Z.
Proof.
  unfold Datetime.representable.
  rewrite andb_true_iff, Z.ltb_lt, Z.leb_le.
  change Datetime.DAY_US with 86400000000%Z.
  change Datetime.MAXORDINAL with 3652059%Z.
  pose proof (Z.div_mod x 86400000000 ltac:(lia)).
  pose proof (Z.mod_pos_bound x 86400000000 ltac:(lia)).
  lia.
Qed.

Lemma timedelta_us_small (x : Z) :
  (Z.abs x <= 10 ^ 19)%Z -> Datetime.timedelta_us x = Ok x.
Proof.
  intros Hx. unfold Datetime.timedelta_us.
  change Datetime.DAY_US with 86400000000%Z.
  change Datetime.MAX_DELTA_DAYS with 999999999%Z.
  change (10 ^ 19)%Z with 10000000000000000000%Z in Hx.
  pose proof (Z.div_mod x 86400000000 ltac:(lia)).
  pose proof (Z.mod_pos_bound x 86400000000 ltac:(lia)).
  destruct (Z.ltb_spec 999999999 (Z.abs (x / 86400000000))); [lia | reflexivity].
Qed.

Lemma add_in_range (epoch td : Z) :
  (Z.abs (epoch + td) <= 10 ^ 19)%Z ->
  Datetime.representable (epoch + td) = true ->
  Datetime.add epoch td = Ok (epoch + td)%Z.
Proof.
  intros Hs Hr. unfold Datetime.add.
  rewrite timedelta_us_small by exact Hs. cbn [bind]. by rewrite Hr.
Qed.

Lemma not_representable_unrepresentable (epoch us : Z) :
  Datetime.representable (epoch + us) = false -> unrepresentable epoch us.
Proof.
  unfold Datetime.representable, unrepresentable.
  rewrite andb_false_iff, Z.ltb_ge, Z.leb_gt. lia.
Qed.

(** X1. A nonzero chromium timestamp converts exactly when it lies between
    the first microsecond of the year 1 and the last of the year 9999,
    counted from 1601; it is then the formatted instant, and outside that
    range the converter raises OverflowError. *)
Theorem chrome_to_timestamp_range (n : Z) :
  n <> 0%Z ->
  ((-50491123200000000 <= n <= 265046774399999999)%Z ->
   chrome_to_timestamp (PyInt n)
   = Ok (PyStr (Datetime.strftime (Datetime.datetime 1601 1 1 + n)))) /\
  (~ (-50491123200000000 <= n <= 265046774399999999)%Z ->
   chrome_to_timestamp (PyInt n) = Raise OverflowError).
Proof.
  intros Hn. split; intros Hr.
  - unfold chrome_to_timestamp, py_eq_zero, Datetime.timedelta_microseconds.
    cbn [py_as_int]. rewrite (proj2 (Z.eqb_neq n 0) Hn).
    rewrite timedelta_us_small by lia. cbn [bind].
    rewrite add_in_range; [reflexivity | |].
    + change (Datetime.datetime 1601 1 1) with 50491209600000000%Z. lia.
    + apply representable_bounds.
      change (Datetime.datetime 1601 1 1) with 50491209600000000%Z. lia.
  - apply chrome_unrepresentable, not_representable_unrepresentable.
    destruct (Datetime.representable _) eqn:E; [|reflexivity].
    apply representable_bounds in E.
    change (Datetime.datetime 1601 1 1) with 50491209600000000%Z in E. lia.
Qed.

Lemma chrome_to_timestamp_range_witness :
  chrome_to_timestamp (PyInt 265046774399999999)
  = Ok (PyStr (Datetime.strftime
                 (Datetime.datetime 1601 1 1 + 265046774399999999))).
Proof.
  apply (proj1 (chrome_to_timestamp_range 265046774399999999 ltac:(lia))).
  lia.
Defined.

(** X2. A nonzero webkit timestamp, in seconds from 2001, converts exactly
    when it lies between the first second of the year 1 and the last of the
    year 9999; outside that range the converter raises OverflowError. *)
Theorem webkit_to_timestamp_range (n : Z) :
  n <> 0%Z ->
  ((-63113904000 <= n <= 252423993599)%Z ->
   webkit_to_timestamp (PyInt n)
   = Ok (PyStr (Datetime.strftime
                  (Datetime.datetime 2001 1 1 + n * 1000000)))) /\
  (~ (-63113904000 <= n <= 252423993599)%Z ->
   webkit_to_timestamp (PyInt n) = Raise OverflowError).
Proof.
  intros Hn. split; intros Hr.
  - unfold webkit_to_timestamp, py_eq_zero, Datetime.timedelta_seconds.
    cbn [py_as_int]. rewrite (proj2 (Z.eqb_neq n 0) Hn).
    rewrite timedelta_us_small by lia. cbn [bind].
    rewrite add_in_range; [reflexivity | |].
    + change (Datetime.datetime 2001 1 1) with 63113990400000000%Z. lia.
    + apply representable_bounds.
      change (Datetime.datetime 2001 1 1) with 63113990400000000%Z. lia.
  - apply webkit_unrepresentable, not_representable_unrepresentable.
    destruct (Datetime.representable _) eqn:E; [|reflexivity].
    apply representable_bounds in E.
    change (Datetime.datetime 2001 1 1) with 63113990400000000%Z in E. lia.
Qed.

Lemma webkit_to_timestamp_range_witness :
  webkit_to_timestamp (PyInt (-63113904000))
  = Ok (PyStr (Datetime.strftime
                 (Datetime.datetime 2001 1 1 + -63113904000 * 1000000))).
Proof.
  apply (proj1 (webkit_to_timestamp_range (-63113904000) ltac:(lia))).
  lia.
Defined.

(** ** The sentinel *)

Lemma has_dash_app (a b : string) : has_dash (a ++ "-" ++ b) = true.
Proof. induction a as [|c a IH]; [reflexivity|]. unfold has_dash in *. simpl.
  rewrite IH. apply orb_true_r. Qed.

Lemma strftime_not_never (dt : Z) : Datetime.strftime dt <> "Never".
Proof.
  unfold Datetime.strftime. destruct (Datetime.ord2ymd _) as [[y m] d].
  intros H. apply (f_equal has_dash) in H.
  rewrite has_dash_app in H. discriminate H.
Qed.

Lemma converter_tail_not_never {A} (m : result A) (f : A -> Z) :
  (let! x := m in Ok (PyStr (Datetime.strftime (f x)))) <> Ok (PyStr "Never").
Proof.
  destruct m as [a|e]; cbn [bind]; [|discriminate].
  intros [= H]. by apply strftime_not_never in H.
Qed.

(** X3. Each converter returns "Never" for the values that equal 0 and for
    no other value: a formatted date is never the sentinel. *)
Theorem never_only_for_zero (v : pyval) :
  (chrome_to_timestamp v = Ok (PyStr "Never") <-> py_eq_zero v = true) /\
  (webkit_to_timestamp v = Ok (PyStr "Never") <-> py_eq_zero v = true) /\
  (firefox_to_timestamp v = Ok (PyStr "Never") <-> py_eq_zero v = true).
Proof.
  unfold chrome_to_timestamp, webkit_to_timestamp, firefox_to_timestamp.
  destruct (py_eq_zero v); repeat split; try done; intros H; exfalso.
  - destruct (Datetime.timedelta_microseconds v) as [td|]; [|discriminate].
    cbn [bind] in H.
    by apply (converter_tail_not_never _ (fun x => x)) in H.
  - destruct (Datetime.timedelta_seconds v) as [td|]; [|discriminate].
    cbn [bind] in H.
    by apply (converter_tail_not_never _ (fun x => x)) in H.
  - destruct (py_truediv v 1000000) as [x|]; [|discriminate].
    cbn [bind] in H.
    by apply (converter_tail_not_never _ (fun x => x)) in H.
Qed.

Lemma converters_non_integer (v : pyval) :
  py_as_int v = None ->
  chrome_to_timestamp v = Raise TypeError /\
  webkit_to_timestamp v = Raise TypeError /\
  firefox_to_timestamp v = Raise TypeError.
Proof.
  intros H.
  unfold chrome_to_timestamp, webkit_to_timestamp, firefox_to_timestamp,
    py_eq_zero, Datetime.timedelta_microseconds, Datetime.timedelta_seconds,
    py_truediv.
  rewrite H. repeat split.
Qed.

(** X4. A timestamp column that holds no integer (NULL, text or a blob)
    makes each converter raise TypeError; it is not read as "Never". *)
Theorem non_integer_timestamp_raises (v : pyval) :
  py_as_int v = None ->
  chrome_to_timestamp v = Raise TypeError /\
  webkit_to_timestamp v = Raise TypeError /\
  firefox_to_timestamp v = Raise TypeError.
Proof. exact (converters_non_integer v). Qed.

Lemma non_integer_timestamp_raises_witness :
  chrome_to_timestamp PyNone = Raise TypeError /\
  webkit_to_timestamp PyNone = Raise TypeError /\
  firefox_to_timestamp PyNone = Raise TypeError.
Proof. apply (non_integer_timestamp_raises PyNone). reflexivity. Defined.

(** ** What a tag tells *)

Lemma detect_tags (fs : filesystem) (path : string) :
  exists bt,
    detect_browser_type fs path = Ok bt /\
    init fs path = Ok {| db_path := path; browser_type := bt |} /\
    In bt ["chrome"; "firefox"; "safari"; "unknown"].
Proof.
  unfold init, detect_browser_type, connect.
  destruct (fs path) as [| |d]; cbn [bind table_names try_except].
  1,2: exists "unknown"; simpl; auto 10.
  repeat match goal with
  | |- context [if ?c then _ else _] => destruct c
  end; cbn [bind try_except]; eexists; (split; [reflexivity|]);
    (split; [reflexivity|]); simpl; auto 10.
Qed.

(** X5. Classification never raises and answers with one of the four tags
    'chrome', 'firefox', 'safari' and 'unknown', so a parser can be built on
    every path. *)
Theorem detect_browser_type_tags (fs : filesystem) (path : string) :
  exists bt,
    detect_browser_type fs path = Ok bt /\
    init fs path = Ok {| db_path := path; browser_type := bt |} /\
    In bt ["chrome"; "firefox"; "safari"; "unknown"].
Proof. exact (detect_tags fs path). Qed.

(** X6. A tag other than 'unknown' vouches for the tables behind it: a
    path classified 'chrome' holds a database with tables urls, visits and
    downloads; 'firefox', one with moz_places and moz_historyvisits;
    'safari', one with history_items and history_visits. *)
Theorem tag_vouches_for_tables (fs : filesystem) (path : string) (bt : string) :
  detect_browser_type fs path = Ok bt ->
  bt <> "unknown" ->
  exists d,
    fs path = SqliteFile d /\
    (bt = "chrome" /\
       ["urls"; "visits"; "downloads"] ⊆ List.map Sql.tbl_name d
     \/ bt = "firefox" /\
       ["moz_places"; "moz_historyvisits"] ⊆ List.map Sql.tbl_name d
     \/ bt = "safari" /\
       ["history_items"; "history_visits"] ⊆ List.map Sql.tbl_name d).
Proof.
  unfold detect_browser_type, connect. intros H Hbt.
  destruct (fs path) as [| |d]; cbn [bind table_names try_except] in H;
    try (injection H as <-; contradiction).
  exists d. split; [reflexivity|].
  set (tables := List.map Sql.tbl_name d) in *.
  pose proof (list_subseteq_nil tables) as Hnil.
  destruct (_ && _) eqn:Hc in H.
  { injection H as <-. left. split; [reflexivity|].
    rewrite !andb_true_iff, !py_in_elem_of in Hc.
    rewrite !cons_subseteq_iff. tauto. }
  destruct (_ && _) eqn:Hg in H.
  { injection H as <-. right. left. split; [reflexivity|].
    rewrite !andb_true_iff, !py_in_elem_of in Hg.
    rewrite !cons_subseteq_iff. tauto. }
  destruct (_ && _) eqn:Hw in H.
  { injection H as <-. right. right. split; [reflexivity|].
    rewrite !andb_true_iff, !py_in_elem_of in Hw.
    rewrite !cons_subseteq_iff. tauto. }
  injection H as <-. contradiction.
Qed.

Lemma tag_vouches_for_tables_witness :
  exists d,
    Samples.fs "History.db" = SqliteFile d /\
    ("safari" = "chrome" /\
       ["urls"; "visits"; "downloads"] ⊆ List.map Sql.tbl_name d
     \/ "safari" = "firefox" /\
       ["moz_places"; "moz_historyvisits"] ⊆ List.map Sql.tbl_name d
     \/ "safari" = "safari" /\
       ["history_items"; "history_visits"] ⊆ List.map Sql.tbl_name d).
Proof.
  apply (tag_vouches_for_tables Samples.fs "History.db" "safari").
  - vm_compute. reflexivity.
  - discriminate.
Defined.

(** ** Statements over one table *)

Module SqlRows.
Import Sql.

Lemma col_padded (width i : nat) (r : row) :
  (i < width)%nat -> col i (padded width r) = col i r.
Proof.
  intros Hi. unfold padded, col at 1.
  rewrite (nth_indep _ SqlNull (col 0 r)) by (rewrite length_map, length_seq; lia).
  rewrite (List.map_nth (fun i => col i r) (seq 0 width) 0%nat i).
  by rewrite seq_nth.
Qed.

Lemma positions_bound {A} (p : A -> bool) (l : list A) (i0 i : nat) :
  In i (positions p l i0) -> (i0 <= i < i0 + length l)%nat.
Proof.
  revert i0. induction l as [|x l IH]; intros i0; simpl; [tauto|].
  destruct (p x); simpl; intros H.
  - destruct H as [<-|H]; [lia|]. apply IH in H. lia.
  - apply IH in H. lia.
Qed.

Lemma resolve_bound (sc : scope) (c : cref) (i : nat) :
  resolve sc c = Ok i -> (i < length sc)%nat.
Proof.
  unfold resolve. destruct (positions (matches c) sc 0) as [|j [|? ?]] eqn:E;
    try discriminate.
  intros [= <-].
  pose proof (positions_bound (matches c) sc 0 j) as H.
  rewrite E in H. specialize (H ltac:(by left)). lia.
Qed.

Lemma positions_ext {A B} (p : A -> bool) (q : B -> bool) l1 l2 i0 :
  Forall2 (fun x y => p x = q y) l1 l2 ->
  positions p l1 i0 = positions q l2 i0.
Proof.
  intros H. revert i0. induction H as [|x y l1 l2 Hxy _ IH]; intros i0;
    simpl; [reflexivity|].
  rewrite Hxy, !IH. reflexivity.
Qed.

(** An unqualified reference resolves the same under every alias. *)
Lemma resolve_unqualified (a b : string) (cols : list string) (name : string) :
  resolve (List.map (fun c => (a, c)) cols) (ucol name)
  = resolve (List.map (fun c => (b, c)) cols) (ucol name).
Proof.
  unfold resolve. erewrite positions_ext; [reflexivity|].
  induction cols; simpl; constructor; auto.
Qed.

(** What a statement without joins computes. *)
Lemma eval_single_table (d : database) (q : query) (rows : list row) :
  q_joins q = [] ->
  eval d q = Ok rows ->
  exists t sel k kept,
    let sc := List.map (fun c => (snd (q_from q), c)) (tbl_cols t) in
    find_table d (fst (q_from q)) = Ok t /\
    for_each (resolve sc) (q_select q) = Ok sel /\
    resolve sc (q_order_by_desc q) = Ok k /\
    apply_where sc (q_where q)
      (List.map (padded (length (tbl_cols t))) (tbl_rows t)) = Ok kept /\
    rows = List.map (project sel)
             (apply_limit (q_limit q) (merge_sort (desc k) kept)).
Proof.
  intros Hj H. unfold eval in H. rewrite Hj in H.
  apply bind_ok in H as (rel0 & Hscan & H). cbn [join_all bind] in H.
  apply bind_ok in H as (sel & Hsel & H).
  apply bind_ok in H as (kept & Hw & H).
  apply bind_ok in H as (k & Hk & H). injection H as <-.
  unfold scan in Hscan. apply bind_ok in Hscan as (t & Ht & Hscan).
  injection Hscan as <-. cbn [fst snd] in *.
  exists t, sel, k, kept. auto.
Qed.

Lemma for_each_cons_inv {A B} (f : A -> result B) x l ys :
  for_each f (x :: l) = Ok ys ->
  exists y ys', f x = Ok y /\ for_each f l = Ok ys' /\ ys = y :: ys'.
Proof.
  simpl. intros H. apply bind_ok in H as (y & Hy & H).
  apply bind_ok in H as (ys' & Hys & H). injection H as <-. eauto.
Qed.

End SqlRows.

(** ** History *)

Lemma get_history_data_rows fs self data :
  get_history_data fs self = Ok data ->
  data = [] \/
  exists d q mk rows,
    fs (db_path self) = SqliteFile d /\
    ((browser_type self = "chrome"
      /\ q = chrome_history_query /\ mk = chrome_history_record)
     \/ (browser_type self = "firefox"
         /\ q = firefox_history_query /\ mk = firefox_history_record)
     \/ (browser_type self = "safari"
         /\ q = safari_history_query /\ mk = safari_history_record)) /\
    Sql.eval d q = Ok rows /\
    for_each mk (List.map (List.map Sql.to_py) rows) = Ok data.
Proof.
  unfold get_history_data. intros H.
  apply try_except_inv in H as [H|H]; [|by left].
  apply bind_ok in H as (conn & Hconn & H).
  apply bind_ok in H as (o & Hb & H).
  destruct o as [data'|]; [injection H as -> | discriminate].
  destruct (String.eqb_spec (browser_type self) "chrome") as [Hc|_].
  { apply (run_branch_inv conn _ chrome_history_record) in Hb
      as (d & rows & data' & -> & He & Hf & [= ->]).
    apply connect_db in Hconn. right.
    exists d, chrome_history_query, chrome_history_record, rows. auto 10. }
  destruct (String.eqb_spec (browser_type self) "firefox") as [Hf|_].
  { apply (run_branch_inv conn _ firefox_history_record) in Hb
      as (d & rows & data' & -> & He & Hf' & [= ->]).
    apply connect_db in Hconn. right.
    exists d, firefox_history_query, firefox_history_record, rows. auto 10. }
  destruct (String.eqb_spec (browser_type self) "safari") as [Hs|_].
  { apply (run_branch_inv conn _ safari_history_record) in Hb
      as (d & rows & data' & -> & He & Hf' & [= ->]).
    apply connect_db in Hconn. right.
    exists d, safari_history_query, safari_history_record, rows. auto 10. }
  discriminate.
Qed.




Lemma length_sorted_rows (k : nat) (rows : list Sql.row) :
  length (merge_sort (Sql.desc k) rows) = length rows.
Proof. apply Permutation_length, merge_sort_Permutation. Qed.

Lemma length_filter_map {A B} (f : B -> bool) (g : A -> B) (h : A -> bool) l :
  (forall x, In x l -> f (g x) = h x) ->
  length (List.filter f (List.map g l)) = length (List.filter h l).
Proof.
  induction l as [|x l IH]; intros H; simpl; [reflexivity|].
  rewrite (H x) by (by left). destruct (h x); simpl; rewrite IH; auto;
    intros y Hy; apply H; by right.
Qed.

Lemma mapped_length {R} (mk : list pyval -> result R) rows data :
  for_each mk (List.map (List.map Sql.to_py) rows) = Ok data ->
  length data = length rows.
Proof.
  intros H. apply for_each_Forall2, Forall2_length in H.
  by rewrite length_map in H.
Qed.

(** X8. Chromium and webkit history are not capped: when the operation
    returns any record, it returns one for every row of the urls table
    (history_items for 'safari'). *)
Theorem history_returns_every_row
  (fs : filesystem) (self : BrowserHistoryParser)
  (d : Sql.database) (data : list HistoryRecord) :
  fs (db_path self) = SqliteFile d ->
  get_history_data fs self = Ok data ->
  data <> [] ->
  (browser_type self = "chrome" ->
   exists t, Sql.find_table d "urls" = Ok t
             /\ length data = length (Sql.tbl_rows t)) /\
  (browser_type self = "safari" ->
   exists t, Sql.find_table d "history_items" = Ok t
             /\ length data = length (Sql.tbl_rows t)).
Proof.
  intros Hfs H Hne.
  apply get_history_data_rows in H
    as [-> | (d' & q & mk & rows & Hfs' & Hcase & He & Hf)]; [done|].
  rewrite Hfs in Hfs'. injection Hfs' as <-.
  apply mapped_length in Hf. rewrite Hf.
  split; intros Hbt;
    destruct Hcase as [(Hb & -> & _) | [(Hb & -> & _) | (Hb & -> & _)]];
    rewrite Hbt in Hb; try discriminate Hb;
    apply SqlRows.eval_single_table in He as (t & sel & k & kept & He);
      try reflexivity;
    cbn zeta in He; destruct He as (Ht & _ & _ & Hw & ->);
    cbn [Sql.q_where chrome_history_query safari_history_query
         Sql.apply_where] in Hw; injection Hw as <-;
    exists t; (split; [exact Ht|]);
    cbn [Sql.q_limit chrome_history_query safari_history_query Sql.apply_limit];
    by rewrite !length_map, length_sorted_rows, length_map.
Qed.

Lemma history_returns_every_row_witness :
  exists t, Sql.find_table Samples.chrome_db "urls" = Ok t
            /\ length [Samples.hidden_record; Samples.shown_record]
               = length (Sql.tbl_rows t).
Proof.
  refine (proj1 (history_returns_every_row Samples.fs Samples.chrome
                   Samples.chrome_db
                   [Samples.hidden_record; Samples.shown_record]
                   eq_refl _ _) eq_refl).
  - vm_compute. reflexivity.
  - discriminate.
Defined.

(** X9. Gecko history skips the places that were never visited: when the
    operation returns any record, it returns one for every row of
    moz_places whose last_visit_date is not NULL. *)
Theorem firefox_history_skips_null_dates
  (fs : filesystem) (self : BrowserHistoryParser)
  (d : Sql.database) (data : list HistoryRecord) :
  fs (db_path self) = SqliteFile d ->
  browser_type self = "firefox" ->
  get_history_data fs self = Ok data ->
  data <> [] ->
  exists t i,
    Sql.find_table d "moz_places" = Ok t /\
    column_index t "last_visit_date" = Ok i /\
    length data
    = length (List.filter (fun r => negb (is_null (Sql.col i r)))
                (Sql.tbl_rows t)).
Proof.
  intros Hfs Hbt H Hne.
  apply get_history_data_rows in H
    as [-> | (d' & q & mk & rows & Hfs' & Hcase & He & Hf)]; [done|].
  rewrite Hfs in Hfs'. injection Hfs' as <-.
  apply mapped_length in Hf. rewrite Hf.
  destruct Hcase as [(Hb & -> & _) | [(Hb & -> & _) | (Hb & -> & _)]];
    rewrite Hbt in Hb; try discriminate Hb.
  apply SqlRows.eval_single_table in He as (t & sel & k & kept & He);
    [|reflexivity].
  cbn zeta in He. destruct He as (Ht & _ & _ & Hw & ->).
  cbn [Sql.q_where firefox_history_query Sql.apply_where] in Hw.
  apply bind_ok in Hw as (i & Hi & Hw). injection Hw as <-.
  exists t, i. split; [exact Ht|]. split.
  { unfold column_index.
    by rewrite (SqlRows.resolve_unqualified _
                  (snd (Sql.q_from firefox_history_query))). }
  cbn [Sql.q_limit firefox_history_query Sql.apply_limit].
  rewrite !length_map, length_sorted_rows.
  apply length_filter_map. intros r _.
  apply SqlRows.resolve_bound in Hi. rewrite length_map in Hi.
  rewrite SqlRows.col_padded by exact Hi.
  by destruct (Sql.col i r).
Qed.

Lemma firefox_history_skips_null_dates_witness :
  exists t i,
    Sql.find_table Samples.firefox_db "moz_places" = Ok t /\
    column_index t "last_visit_date" = Ok i /\
    length [MoreSamples.visited_place]
    = length (List.filter (fun r => negb (is_null (Sql.col i r)))
                (Sql.tbl_rows t)).
Proof.
  apply (firefox_history_skips_null_dates Samples.fs Samples.firefox
           Samples.firefox_db [MoreSamples.visited_place] eq_refl eq_refl).
  - vm_compute. reflexivity.
  - discriminate.
Defined.

Lemma fetched_non_integer (v : Sql.sqlval) :
  (forall z, v <> Sql.SqlInt z) -> py_as_int (Sql.to_py v) = None.
Proof. destruct v; try reflexivity. intros H. by destruct (H z). Qed.

(** A stored row reaches the result of a statement without joins, filter
    and limit. *)
Lemma eval_single_table_In (d : Sql.database) (q : Sql.query)
  (rows : list Sql.row) (t : Sql.table) (r : Sql.row) :
  Sql.q_joins q = [] -> Sql.q_where q = None -> Sql.q_limit q = None ->
  Sql.eval d q = Ok rows ->
  Sql.find_table d (fst (Sql.q_from q)) = Ok t ->
  In r (Sql.tbl_rows t) ->
  exists sel,
    for_each (Sql.resolve
                (List.map (fun c => (snd (Sql.q_from q), c)) (Sql.tbl_cols t)))
      (Sql.q_select q) = Ok sel /\
    In (Sql.project sel (padded (length (Sql.tbl_cols t)) r)) rows.
Proof.
  intros Hj Hw Hl He Ht Hin.
  apply SqlRows.eval_single_table in He as (t' & sel & k & kept & He);
    [|exact Hj].
  cbn zeta in He. destruct He as (Ht' & Hsel & _ & Hk & ->).
  rewrite Ht in Ht'. injection Ht' as <-.
  rewrite Hw in Hk. injection Hk as <-. rewrite Hl. cbn [Sql.apply_limit].
  exists sel. split; [exact Hsel|].
  apply in_map.
  eapply Permutation_in; [symmetry; apply merge_sort_Permutation|].
  by apply in_map.
Qed.

(** X10. One chromium url whose last_visit_time holds no integer (NULL,
    text or a blob) empties the whole history: the operation returns no
    record for any url. *)
Theorem chrome_history_lost_to_one_row
  (fs : filesystem) (self : BrowserHistoryParser)
  (d : Sql.database) (t : Sql.table) (i : nat) (r : Sql.row) :
  fs (db_path self) = SqliteFile d ->
  browser_type self = "chrome" ->
  Sql.find_table d "urls" = Ok t ->
  column_index t "last_visit_time" = Ok i ->
  In r (Sql.tbl_rows t) ->
  (forall z, Sql.col i r <> Sql.SqlInt z) ->
  get_history_data fs self = Ok [].
Proof.
  intros Hfs Hbt Ht Hi Hin Hv.
  unfold get_history_data, connect. rewrite Hfs, Hbt.
  cbn [bind String.eqb Ascii.eqb Bool.eqb execute].
  destruct (Sql.eval d chrome_history_query) as [rows|e] eqn:He;
    [|reflexivity].
  cbn [bind].
  destruct (eval_single_table_In d chrome_history_query rows t r)
    as (sel & Hsel & Hrow); try reflexivity; try assumption.
  apply SqlRows.for_each_cons_inv in Hsel as (j & sel' & Hj & _ & ->).
  unfold column_index in Hi.
  rewrite (SqlRows.resolve_unqualified _
             (snd (Sql.q_from chrome_history_query))) in Hi.
  cbn [Sql.q_from chrome_history_query unjoined snd] in Hi, Hj.
  rewrite Hi in Hj. injection Hj as <-.
  set (row := Sql.project (i :: sel') (padded (length (Sql.tbl_cols t)) r)) in *.
  destruct (for_each_raise chrome_history_record
              (List.map (List.map Sql.to_py) rows)
              (List.map Sql.to_py row) TypeError) as [e' ->];
    [by apply in_map | | reflexivity].
  unfold chrome_history_record. rewrite item_fetched.
  unfold row. rewrite SqlFacts.col_project.
  apply SqlRows.resolve_bound in Hi. rewrite length_map in Hi.
  rewrite SqlRows.col_padded by exact Hi.
  by rewrite (proj1 (converters_non_integer _ (fetched_non_integer _ Hv))).
Qed.

Lemma chrome_history_lost_to_one_row_witness :
  get_history_data MoreSamples.fs MoreSamples.unvisited = Ok [].
Proof.
  apply (chrome_history_lost_to_one_row MoreSamples.fs MoreSamples.unvisited
           MoreSamples.unvisited_db
           (List.nth 0 MoreSamples.unvisited_db
              {| Sql.tbl_name := ""; Sql.tbl_cols := []; Sql.tbl_rows := [] |})
           5%nat
           [Sql.SqlInt 2; Sql.SqlText "https://b.example/"; Sql.SqlText "B";
            Sql.SqlInt 0; Sql.SqlInt 0; Sql.SqlNull; Sql.SqlInt 0]);
    try reflexivity.
  - right. left. reflexivity.
  - intros z. discriminate.
Defined.

(** ** Downloads and search terms *)

Lemma get_downloads_data_rows fs self data :
  get_downloads_data fs self = Ok data ->
  data = [] \/
  exists d q mk rows,
    fs (db_path self) = SqliteFile d /\
    ((browser_type self = "chrome"
      /\ q = chrome_downloads_query /\ mk = chrome_download_record)
     \/ (browser_type self = "firefox"
         /\ q = firefox_downloads_query /\ mk = firefox_download_record)) /\
    Sql.eval d q = Ok rows /\
    for_each mk (List.map (List.map Sql.to_py) rows) = Ok data.
Proof.
  unfold get_downloads_data. intros H.
  apply try_except_inv in H as [H|H]; [|by left].
  apply bind_ok in H as (conn & Hconn & H).
  apply bind_ok in H as (o & Hb & H).
  destruct o as [data'|]; [injection H as -> | discriminate].
  destruct (String.eqb_spec (browser_type self) "chrome") as [Hc|_].
  { apply (run_branch_inv conn _ chrome_download_record) in Hb
      as (d & rows & data' & -> & He & Hf & [= ->]).
    apply connect_db in Hconn. right.
    exists d, chrome_downloads_query, chrome_download_record, rows. auto 10. }
  destruct (String.eqb_spec (browser_type self) "firefox") as [Hf|_].
  { apply (run_branch_inv conn _ firefox_download_record) in Hb
      as (d & rows & data' & -> & He & Hf' & [= ->]).
    apply connect_db in Hconn. right.
    exists d, firefox_downloads_query, firefox_download_record, rows. auto 10. }
  injection Hb as <-. by left.
Qed.

Lemma get_search_terms_data_rows fs self data :
  get_search_terms_data fs self = Ok data ->
  data = [] \/
  exists d rows,
    fs (db_path self) = SqliteFile d /\
    browser_type self = "chrome" /\
    Sql.eval d chrome_search_terms_query = Ok rows /\
    for_each chrome_search_term_record (List.map (List.map Sql.to_py) rows)
    = Ok data.
Proof.
  unfold get_search_terms_data. intros H.
  apply try_except_inv in H as [H|H]; [|by left].
  apply bind_ok in H as (conn & Hconn & H).
  apply bind_ok in H as (o & Hb & H).
  destruct o as [data'|]; [injection H as -> | discriminate].
  destruct (String.eqb_spec (browser_type self) "chrome") as [Hc|_].
  { apply (run_branch_inv conn _ chrome_search_term_record) in Hb
      as (d & rows & data' & -> & He & Hf & [= ->]).
    apply connect_db in Hconn. right. exists d, rows. auto. }
  injection Hb as <-. by left.
Qed.



Lemma lacks_table_find (d : Sql.database) (name : string) :
  lacks_table d name -> Sql.find_table d name = Raise OperationalError.
Proof.
  unfold lacks_table, Sql.find_table. intros H.
  destruct (List.find _ d) as [t|] eqn:E; [|reflexivity].
  apply find_some in E as [Hin Hm]. rewrite (H t Hin) in Hm. discriminate.
Qed.

(** X13. A statement that names a table the file lacks yields the empty
    list: chromium search terms without keyword_search_terms, and gecko
    downloads without moz_anno_attributes or without moz_annos. *)
Theorem missing_table_empties
  (fs : filesystem) (self : BrowserHistoryParser) (d : Sql.database) :
  fs (db_path self) = SqliteFile d ->
  (browser_type self = "chrome" ->
   lacks_table d "keyword_search_terms" ->
   get_search_terms_data fs self = Ok []) /\
  (browser_type self = "firefox" ->
   lacks_table d "moz_anno_attributes" \/ lacks_table d "moz_annos" ->
   get_downloads_data fs self = Ok []).
Proof.
  intros Hfs. split; intros Hbt H.
  - unfold get_search_terms_data, connect. rewrite Hfs, Hbt.
    cbn [bind String.eqb Ascii.eqb Bool.eqb execute].
    unfold Sql.eval, Sql.scan.
    cbn [Sql.q_from chrome_search_terms_query fst snd].
    by rewrite (lacks_table_find _ _ H).
  - unfold get_downloads_data, connect. rewrite Hfs, Hbt.
    cbn [bind String.eqb Ascii.eqb Bool.eqb execute].
    unfold Sql.eval, Sql.scan at 1.
    cbn [Sql.q_from firefox_downloads_query fst snd].
    destruct H as [H|H]; [by rewrite (lacks_table_find _ _ H)|].
    destruct (Sql.find_table d "moz_anno_attributes"); [|reflexivity].
    cbn [bind Sql.q_joins firefox_downloads_query Sql.join_all].
    unfold Sql.join_step at 1, Sql.scan at 1. cbn [Sql.j_table].
    by rewrite (lacks_table_find _ _ H).
Qed.

Lemma missing_table_empties_witness :
  get_downloads_data Samples.fs Samples.firefox = Ok [].
Proof.
  apply (proj2 (missing_table_empties Samples.fs Samples.firefox
                  Samples.firefox_db eq_refl) eq_refl).
  left. intros t Ht.
  repeat (destruct Ht as [<-|Ht]; [reflexivity|]). destruct Ht.
Defined.

(** ** File names *)

Lemma basename_from_spec {A} (is_sep : A -> bool) (acc p : list A) :
  (Forall (fun c => is_sep c = false) p /\ basename_from is_sep acc p = acc)
  \/ exists pre c,
       is_sep c = true /\
       p = (pre ++ c :: basename_from is_sep acc p)%list /\
       Forall (fun c => is_sep c = false) (basename_from is_sep acc p).
Proof.
  revert acc. induction p as [|c p IH]; intros acc; simpl; [left; auto|].
  destruct (is_sep c) eqn:Hc.
  - right. destruct (IH p) as [[Hno ->] | (pre & c' & Hc' & Hp & Hno)].
    + exists [], c. auto.
    + exists (c :: pre), c'. repeat split; auto. simpl. by rewrite <- Hp.
  - destruct (IH acc) as [[Hno ->] | (pre & c' & Hc' & Hp & Hno)].
    + left. auto.
    + right. exists (c :: pre), c'. repeat split; auto.
      simpl. by rewrite <- Hp.
Qed.

Lemma string_of_list_ascii_app (a b : list ascii) :
  string_of_list_ascii (a ++ b)%list
  = string_of_list_ascii a ++ string_of_list_ascii b.
Proof. induction a as [|c a IH]; simpl; [reflexivity | by rewrite IH]. Qed.

Lemma no_slash_Forall (l : list ascii) :
  Forall (fun c => Ascii.eqb "/"%char c = false) l ->
  no_slash (string_of_list_ascii l).
Proof.
  unfold no_slash. rewrite list_ascii_of_string_of_list_ascii.
  rewrite List.Forall_forall. intros H Hin. specialize (H _ Hin).
  by rewrite Ascii.eqb_refl in H.
Qed.

(** X14. The filename of a chromium download is the part of its path after
    the last slash: the path is a directory prefix, empty or ending in a
    slash, followed by the filename, and the filename holds no slash.  A
    path without any slash, such as a Windows path, is its own filename. *)
Theorem chrome_download_filename
  (row : list pyval) (r : DownloadRecord) (p : string) :
  chrome_download_record row = Ok r ->
  item 2 row = PyStr p ->
  d_path r = PyStr p /\
  exists dir f,
    d_filename r = PyStr f /\
    p = dir ++ f /\
    no_slash f /\
    (dir = "" \/ exists dir', dir = dir' ++ "/") /\
    (no_slash p -> f = p).
Proof.
  intros H Hp. unfold chrome_download_record in H. rewrite Hp in H.
  destruct (String.eqb_spec p "") as [->|Hne].
  { unfold py_or in H. cbn [py_truthy String.eqb negb bind] in H.
    apply bind_ok in H as (t0 & _ & H). apply bind_ok in H as (t1 & _ & H).
    injection H as <-. split; [reflexivity|].
    exists "", "". unfold no_slash. simpl. auto 10. }
  assert (Ht : py_truthy (PyStr p) = true).
  { simpl. by destruct (String.eqb_spec p ""). }
  unfold py_or in H. rewrite Ht in H. rewrite Ht in H.
  apply bind_ok in H as (f & Hf & H).
  apply bind_ok in H as (t0 & _ & H). apply bind_ok in H as (t1 & _ & H).
  injection H as <-. cbn [d_path d_filename]. split; [reflexivity|].
  unfold basename in Hf. injection Hf as <-.
  set (l := list_ascii_of_string p).
  assert (Hl : p = string_of_list_ascii l)
    by (symmetry; apply string_of_list_ascii_of_string).
  destruct (basename_from_spec (Ascii.eqb "/"%char) l l)
    as [[Hno ->] | (pre & c & Hc & Hpre & Hno)].
  - exists "", p. rewrite <- Hl. repeat split; auto.
    rewrite Hl. by apply no_slash_Forall.
  - apply Ascii.eqb_eq in Hc. subst c.
    exists (string_of_list_ascii (pre ++ ["/"%char])),
      (string_of_list_ascii (basename_from (Ascii.eqb "/"%char) l l)).
    split; [reflexivity|]. split.
    { rewrite <- string_of_list_ascii_app, <- app_assoc. simpl.
      by rewrite <- Hpre. }
    split; [by apply no_slash_Forall|]. split.
    { right. exists (string_of_list_ascii pre).
      by rewrite string_of_list_ascii_app. }
    intros Hns. exfalso. apply Hns. fold l. rewrite Hpre.
    apply in_or_app. right. by left.
Qed.

Lemma chrome_download_filename_witness :
  d_path MoreSamples.zip_download = PyStr "/home/u/Downloads/a.zip" /\
  exists dir f,
    d_filename MoreSamples.zip_download = PyStr f /\
    "/home/u/Downloads/a.zip" = dir ++ f /\
    no_slash f /\
    (dir = "" \/ exists dir', dir = dir' ++ "/") /\
    (no_slash "/home/u/Downloads/a.zip" -> f = "/home/u/Downloads/a.zip").
Proof.
  apply (chrome_download_filename
           [PyInt 13303960000000000; PyInt 0; PyStr "/home/u/Downloads/a.zip";
            PyInt 10; PyInt 20; PyStr "https://a.example/"; PyNone]
           MoreSamples.zip_download).
  - vm_compute. reflexivity.
  - reflexivity.
Defined.

(** ** What the records hold *)

Lemma py_or_not_none (v d : pyval) : d <> PyNone -> py_or v d <> PyNone.
Proof.
  intros Hd. unfold py_or. destruct (py_truthy v) eqn:E; [|exact Hd].
  intros ->. discriminate E.
Qed.

Lemma chrome_timestamp_str (v t : pyval) :
  chrome_to_timestamp v = Ok t -> exists s, t = PyStr s.
Proof.
  unfold chrome_to_timestamp. destruct (py_eq_zero v); [intros [= <-]; eauto|].
  intros H. apply bind_ok in H as (? & _ & H).
  apply bind_ok in H as (? & _ & H). injection H as <-. eauto.
Qed.

Lemma webkit_timestamp_str (v t : pyval) :
  webkit_to_timestamp v = Ok t -> exists s, t = PyStr s.
Proof.
  unfold webkit_to_timestamp. destruct (py_eq_zero v); [intros [= <-]; eauto|].
  intros H. apply bind_ok in H as (? & _ & H).
  apply bind_ok in H as (? & _ & H). injection H as <-. eauto.
Qed.

Lemma firefox_timestamp_str (v t : pyval) :
  firefox_to_timestamp v = Ok t -> exists s, t = PyStr s.
Proof.
  unfold firefox_to_timestamp. destruct (py_eq_zero v); [intros [= <-]; eauto|].
  intros H. apply bind_ok in H as (? & _ & H).
  apply bind_ok in H as (? & _ & H). injection H as <-. eauto.
Qed.

Ltac timestamp_str H :=
  first [ apply chrome_timestamp_str in H as [? ->]
        | apply webkit_timestamp_str in H as [? ->]
        | apply firefox_timestamp_str in H as [? ->] ].

Ltac no_none :=
  repeat constructor; cbn [snd];
  try (apply py_or_not_none); try discriminate;
  try (destruct (py_truthy _)); discriminate.

Lemma history_record_no_none mk row r :
  mk = chrome_history_record \/ mk = firefox_history_record
  \/ mk = safari_history_record ->
  mk row = Ok r ->
  Forall (fun kv => snd kv <> PyNone) (history_items r).
Proof.
  intros [-> | [-> | ->]] H; apply bind_ok in H as (t & Ht & H);
    injection H as <-; timestamp_str Ht; unfold history_items, yes_no;
    cbn [h_last_visit_time h_url h_title h_visit_count h_typed_count
         h_is_hidden]; no_none.
Qed.

Lemma download_record_no_none mk row r :
  mk = chrome_download_record \/ mk = firefox_download_record ->
  mk row = Ok r ->
  Forall (fun kv => snd kv <> PyNone) (download_items r).
Proof.
  intros [-> | ->] H.
  - unfold chrome_download_record in H.
    apply bind_ok in H as (f & Hf & H).
    apply bind_ok in H as (t0 & Ht0 & H). apply bind_ok in H as (t1 & Ht1 & H).
    injection H as <-. timestamp_str Ht0. timestamp_str Ht1.
    assert (f <> PyNone).
    { destruct (py_truthy _); [|by injection Hf as <-].
      unfold basename in Hf. destruct (py_or _ _); by try injection Hf as <-. }
    unfold download_items.
    cbn [d_start_time d_end_time d_filename d_path d_received_bytes
         d_total_bytes d_source_url d_referrer_url].
    repeat constructor; cbn [snd]; try done; by apply py_or_not_none.
  - apply bind_ok in H as (t0 & Ht0 & H). apply bind_ok in H as (t1 & Ht1 & H).
    injection H as <-. timestamp_str Ht0. timestamp_str Ht1.
    unfold download_items.
    cbn [d_start_time d_end_time d_filename d_path d_received_bytes
         d_total_bytes d_source_url d_referrer_url]. no_none.
Qed.

Lemma visit_record_no_none mk row r :
  mk = chrome_visit_record \/ mk = firefox_visit_record ->
  mk row = Ok r ->
  Forall (fun kv => snd kv <> PyNone) (visit_items r).
Proof.
  intros [-> | ->] H; apply bind_ok in H as (t & Ht & H);
    injection H as <-; timestamp_str Ht; unfold visit_items;
    cbn [v_visit_time v_url v_title v_transition v_referrer_url
         v_referrer_title v_segment_name]; no_none.
Qed.

Lemma search_term_record_no_none row r :
  chrome_search_term_record row = Ok r ->
  Forall (fun kv => snd kv <> PyNone) (search_term_items r).
Proof.
  intros H. apply bind_ok in H as (t & Ht & H).
  injection H as <-. timestamp_str Ht. unfold search_term_items.
  cbn [s_last_visit_time s_search_url s_term s_page_title s_visit_count].
  no_none.
Qed.

(** X15. No record of any of the four operations holds None: a NULL
    column reaches the caller as the empty string or as 0, never as null. *)
Theorem records_hold_no_none (fs : filesystem) (self : BrowserHistoryParser) :
  (forall data r kv, get_history_data fs self = Ok data ->
     In r data -> In kv (history_items r) -> snd kv <> PyNone) /\
  (forall data r kv, get_downloads_data fs self = Ok data ->
     In r data -> In kv (download_items r) -> snd kv <> PyNone) /\
  (forall data r kv, get_visits_data fs self = Ok data ->
     In r data -> In kv (visit_items r) -> snd kv <> PyNone) /\
  (forall data r kv, get_search_terms_data fs self = Ok data ->
     In r data -> In kv (search_term_items r) -> snd kv <> PyNone).
Proof.
  repeat split; intros data r kv H Hr Hkv.
  - apply get_history_data_rows in H
      as [-> | (d & q & mk & rows & _ & Hcase & _ & Hf)]; [destruct Hr|].
    destruct (for_each_In _ _ _ _ Hf Hr) as (row & _ & Hrow).
    assert (HF : Forall (fun kv => snd kv <> PyNone) (history_items r)).
    { eapply history_record_no_none; [|exact Hrow]. intuition. }
    rewrite List.Forall_forall in HF. exact (HF kv Hkv).
  - apply get_downloads_data_rows in H
      as [-> | (d & q & mk & rows & _ & Hcase & _ & Hf)]; [destruct Hr|].
    destruct (for_each_In _ _ _ _ Hf Hr) as (row & _ & Hrow).
    assert (HF : Forall (fun kv => snd kv <> PyNone) (download_items r)).
    { eapply download_record_no_none; [|exact Hrow]. intuition. }
    rewrite List.Forall_forall in HF. exact (HF kv Hkv).
  - apply get_visits_data_inv in H as [-> | (d & rows & _ & H)];
      [destruct Hr|].
    assert (HF : Forall (fun kv => snd kv <> PyNone) (visit_items r)).
    { destruct H as [(_ & _ & Hf) | (_ & _ & Hf)];
        destruct (for_each_In _ _ _ _ Hf Hr) as (row & _ & Hrow);
        (eapply visit_record_no_none; [|exact Hrow]); auto. }
    rewrite List.Forall_forall in HF. exact (HF kv Hkv).
  - apply get_search_terms_data_rows in H
      as [-> | (d & rows & _ & _ & _ & Hf)]; [destruct Hr|].
    destruct (for_each_In _ _ _ _ Hf Hr) as (row & _ & Hrow).
    assert (HF : Forall (fun kv => snd kv <> PyNone) (search_term_items r)).
    { by eapply search_term_record_no_none. }
    rewrite List.Forall_forall in HF. exact (HF kv Hkv).
Qed.

(** ** The API routes *)

Lemma for_each_total {A B} (f : A -> result B) (l : list A) :
  (forall x, In x l -> exists y, f x = Ok y) ->
  exists ys, for_each f l = Ok ys /\ length ys = length l.
Proof.
  induction l as [|x l IH]; intros H; simpl; [by exists []|].
  destruct (H x ltac:(by left)) as [y ->]. cbn [bind].
  destruct IH as (ys & -> & Hlen); [intros; apply H; by right|].
  exists (y :: ys). simpl. auto.
Qed.

Lemma for_each_raise_kind {A B} (f : A -> result B) (l : list A) (x : A)
  (e0 : exn) :
  (forall y e, f y = Raise e -> e = e0) ->
  In x l -> f x = Raise e0 -> for_each f l = Raise e0.
Proof.
  intros Hk Hin Hx. destruct (for_each_raise f l x e0 Hin Hx) as [e' He'].
  rewrite He'. f_equal. clear Hin Hx.
  revert He'. induction l as [|y l IH]; simpl; [discriminate|].
  destruct (f y) as [b|e] eqn:Hy; cbn [bind].
  - destruct (for_each f l); cbn [bind]; [discriminate|].
    intros [= <-]. by apply IH.
  - intros [= <-]. eauto.
Qed.

Lemma item_json_raise (kv : string * pyval) (e : exn) :
  (let! j := to_json (snd kv) in Ok (fst kv, j)) = Raise e -> e = TypeError.
Proof. destruct kv as [k []]; simpl; congruence. Qed.

Lemma dict_json_raise (items : list (string * pyval)) (e : exn) :
  dict_json items = Raise e -> e = TypeError.
Proof.
  unfold dict_json.
  destruct (for_each _ items) as [fields|e'] eqn:E; cbn [bind]; [discriminate|].
  intros [= <-]. revert E.
  induction items as [|kv items IH]; simpl; [discriminate|].
  destruct (let! j := to_json (snd kv) in Ok (fst kv, j)) eqn:Hkv; cbn [bind].
  - destruct (for_each _ items); cbn [bind]; [discriminate|].
    intros [= <-]. by apply IH.
  - intros [= <-]. by apply item_json_raise in Hkv.
Qed.

Lemma dict_json_bytes (items : list (string * pyval)) kv b :
  In kv items -> snd kv = PyBytes b -> dict_json items = Raise TypeError.
Proof.
  intros Hin Hb. unfold dict_json.
  rewrite (for_each_raise_kind _ items kv TypeError); [reflexivity | | exact Hin |].
  - intros y e. apply item_json_raise.
  - by rewrite Hb.
Qed.

Lemma dict_json_ok (items : list (string * pyval)) :
  (forall kv b, In kv items -> snd kv <> PyBytes b) ->
  exists j, dict_json items = Ok j.
Proof.
  intros H. unfold dict_json.
  destruct (for_each_total
              (fun kv => let! j := to_json (snd kv) in Ok (fst kv, j)) items)
    as (fields & -> & _); [|simpl; eauto].
  intros [k v] Hin. destruct v; simpl; eauto.
  by destruct (H (k, PyBytes b) b Hin).
Qed.

Lemma answers_intro {R} (str_exn : exn -> string)
  (route : filesystem -> option BrowserHistoryParser -> response)
  (get : filesystem -> BrowserHistoryParser -> result (list R))
  (items : R -> list (string * pyval)) :
  (forall fs, route fs None = error_response "No database loaded" 400) ->
  (forall fs p,
     route fs (Some p)
     = respond str_exn (let! data := get fs p in
                        jsonify_data items data (browser_type p))) ->
  (forall fs p, exists data, get fs p = Ok data) ->
  answers str_exn route get items.
Proof.
  intros Hnone Hsome Htotal fs. split; [apply Hnone|].
  intros p. destruct (Htotal fs p) as [data Hdata]. exists data.
  split; [exact Hdata|]. rewrite Hsome, Hdata. cbn [bind].
  unfold jsonify_data. split.
  - intros Hno.
    destruct (for_each_total (fun r => dict_json (items r)) data)
      as (rows & -> & Hlen).
    { intros r Hr. apply dict_json_ok. intros kv b Hkv Hb.
      apply Hno. by exists r, kv, b. }
    exists rows. auto.
  - intros (r & kv & b & Hr & Hkv & Hb).
    rewrite (for_each_raise_kind _ data r TypeError); [reflexivity | | exact Hr |].
    + intros y e. apply dict_json_raise.
    + by eapply dict_json_bytes.
Qed.

(** X16. Each API route answers 400 'No database loaded' while no parser is
    loaded.  With a parser it never fails on the extraction: it answers 200
    with one JSON object per record and the parser's tag, unless a record
    holds a bytes value (a BLOB column), in which case serialization raises
    and the route answers 500. *)
Theorem api_answers (str_exn : exn -> string) :
  answers str_exn (get_history str_exn) get_history_data history_items /\
  answers str_exn (get_downloads str_exn) get_downloads_data download_items /\
  answers str_exn (get_visits str_exn) get_visits_data visit_items /\
  answers str_exn (get_search_terms str_exn) get_search_terms_data
    search_term_items.
Proof.
  split; [|split; [|split]]; apply answers_intro; try reflexivity;
    intros fs p; apply try_except_total.
Qed.

(** ** The upload route *)

Section Upload.

Variable str_exn : exn -> string.
Variable secure_filename : string -> string.
Variable UPLOAD_FOLDER : string.
Variable save : filesystem -> string -> artifact -> filesystem * option exn.

Let upload := upload_file str_exn secure_filename UPLOAD_FOLDER save.
Let filepath (f : FileStorage) :=
  path_join UPLOAD_FOLDER (secure_filename (filename f)).

Lemma upload_named (fs : filesystem) cp (f : FileStorage) :
  filename f <> "" ->
  endswith (Sql.lower (filename f)) ".sqlite" = true ->
  upload fs cp (Some f)
  = match save fs (filepath f) (stream f) with
    | (fs', Some e) =>
        (error_response ("Error processing file: " ++ str_exn e) 500,
         fs', cp)
    | (fs', None) =>
        match init fs' (filepath f) with
        | Raise e =>
            (error_response ("Error processing file: " ++ str_exn e) 500,
             fs', cp)
        | Ok parser =>
            ((JObj [ ("success", JBool true);
                     ("filename", JStr (secure_filename (filename f)));
                     ("browser_type", JStr (browser_type parser));
                     ("message",
                      JStr ("Successfully loaded "
                            ++ title (browser_type parser)
                            ++ " database")) ],
              200%Z),
             fs', Some parser)
        end
    end.
Proof.
  intros Hne Hend. unfold upload, upload_file, filepath.
  destruct (String.eqb_spec (filename f) ""); [done|].
  cbn [py_truthy]. destruct (String.eqb_spec (filename f) ""); [done|].
  cbn [negb andb]. by rewrite Hend.
Qed.

Lemma upload_rejected_answer (fs : filesystem) cp file :
  rejected file ->
  exists msg, upload fs cp file = (error_response msg 400, fs, cp).
Proof.
  unfold upload, upload_file.
  intros [-> | (f & -> & H)]; [eauto|].
  destruct (String.eqb_spec (filename f) ""); [eauto|].
  destruct H as [H|H]; [done|]. rewrite H, andb_false_r. eauto.
Qed.

(** X17. The upload route answers 400 exactly when there is no file, the
    name is empty, or the name does not end in '.sqlite' whatever the case
    of its letters; it then writes nothing and keeps the loaded parser. *)
Theorem upload_rejected (fs : filesystem)
  (cp : option BrowserHistoryParser) (file : option FileStorage) :
  (snd (fst (fst (upload fs cp file))) = 400%Z <-> rejected file) /\
  (rejected file ->
   exists msg, upload fs cp file = (error_response msg 400, fs, cp)).
Proof.
  split; [|apply upload_rejected_answer].
  split.
  - destruct file as [f|]; [|by left].
    destruct (String.eqb_spec (filename f) "") as [He|Hne];
      [intros _; right; eauto|].
    destruct (endswith (Sql.lower (filename f)) ".sqlite") eqn:Hend;
      [|intros _; right; eauto].
    rewrite upload_named by assumption.
    destruct (save _ _ _) as [fs' [e|]]; [discriminate|].
    destruct (init _ _); discriminate.
  - intros H. by destruct (upload_rejected_answer fs cp file H) as [msg ->].
Qed.

(** X18. An upload whose name ends in '.sqlite' and whose save succeeds
    answers 200, loads a parser on the saved path and reports its tag,
    which is one of the four and is spelled with a capital in the message.
    When the save left the content at that path, the tag is the
    classification of the content alone. *)
Theorem upload_accepted (fs fs' : filesystem)
  (cp : option BrowserHistoryParser) (f : FileStorage) :
  filename f <> "" ->
  endswith (Sql.lower (filename f)) ".sqlite" = true ->
  save fs (filepath f) (stream f) = (fs', None) ->
  exists bt spelled,
    In (bt, spelled) tag_titles /\
    upload fs cp (Some f)
    = ((JObj [ ("success", JBool true);
               ("filename", JStr (secure_filename (filename f)));
               ("browser_type", JStr bt);
               ("message",
                JStr ("Successfully loaded " ++ spelled ++ " database")) ],
        200%Z),
       fs', Some {| db_path := filepath f; browser_type := bt |}) /\
    (fs' (filepath f) = stream f ->
     detect_browser_type (fun _ => stream f) "" = Ok bt).
Proof.
  intros Hne Hend Hsave. rewrite upload_named, Hsave by assumption.
  destruct (detect_tags fs' (filepath f)) as (bt & Hd & -> & Hbt).
  cbn [browser_type].
  assert (Hcontent : fs' (filepath f) = stream f ->
                     detect_browser_type (fun _ => stream f) "" = Ok bt).
  { intros Hc. rewrite <- Hd. unfold detect_browser_type, connect.
    by rewrite Hc. }
  simpl in Hbt.
  destruct Hbt as [<- | [<- | [<- | [<- | []]]]];
    [exists "chrome", "Chrome" | exists "firefox", "Firefox"
    | exists "safari", "Safari" | exists "unknown", "Unknown"];
    (split; [simpl; auto 10 | split; [reflexivity | exact Hcontent]]).
Qed.

(** X19. An upload whose save raises answers 500 with the exception's text
    and keeps the parser that was loaded before. *)
Theorem upload_save_failed (fs fs' : filesystem)
  (cp : option BrowserHistoryParser) (f : FileStorage) (e : exn) :
  filename f <> "" ->
  endswith (Sql.lower (filename f)) ".sqlite" = true ->
  save fs (filepath f) (stream f) = (fs', Some e) ->
  upload fs cp (Some f)
  = (error_response ("Error processing file: " ++ str_exn e) 500, fs', cp).
Proof.
  intros Hne Hend Hsave. by rewrite upload_named, Hsave by assumption.
Qed.

Lemma respond_status (body : result json) :
  snd (respond str_exn body) = 500%Z
  \/ exists j, body = Ok j /\ respond str_exn body = (j, 200%Z).
Proof. destruct body; simpl; eauto. Qed.

Lemma served {R} (get : filesystem -> BrowserHistoryParser -> result (list R))
  (items : R -> list (string * pyval)) fs p :
  let answer :=
    respond str_exn (let! data := get fs p in
                     jsonify_data items data (browser_type p)) in
  snd answer <> 400%Z /\
  (snd answer = 200%Z ->
   exists rows,
     fst answer = JObj [("data", JArr rows);
                        ("browser_type", JStr (browser_type p))]).
Proof.
  cbn zeta.
  destruct (respond_status (let! data := get fs p in
                            jsonify_data items data (browser_type p)))
    as [H | (j & Hj & H)]; rewrite H; [split; [lia | intros; lia]|].
  split; [simpl; lia|]. intros _. cbn [fst].
  destruct (get fs p) as [data|]; [|discriminate]. cbn [bind] in Hj.
  unfold jsonify_data in Hj.
  destruct (for_each _ data) as [rows|]; [|discriminate].
  injection Hj as <-. eauto.
Qed.

(** X20. After an upload answered 200, a parser is loaded whose tag is the
    one the answer reports, and from then on no API route answers 400:
    each answers 500, or 200 with that same tag. *)
Theorem upload_then_api (fs fs' : filesystem)
  (cp cp' : option BrowserHistoryParser) (file : option FileStorage)
  (body : json) :
  upload fs cp file = ((body, 200%Z), fs', cp') ->
  exists p fields,
    cp' = Some p /\
    body = JObj fields /\
    In ("browser_type", JStr (browser_type p)) fields /\
    Forall (fun route : filesystem -> option BrowserHistoryParser -> response =>
              snd (route fs' cp') <> 400%Z /\
              (snd (route fs' cp') = 200%Z ->
               exists rows,
                 fst (route fs' cp')
                 = JObj [("data", JArr rows);
                         ("browser_type", JStr (browser_type p))]))
      [get_history str_exn; get_downloads str_exn; get_visits str_exn;
       get_search_terms str_exn].
Proof.
  intros H.
  destruct file as [f|]; [|discriminate].
  destruct (String.eqb_spec (filename f) "") as [He|Hne].
  { unfold upload, upload_file in H.
    destruct (String.eqb_spec (filename f) ""); [discriminate | done]. }
  destruct (endswith (Sql.lower (filename f)) ".sqlite") eqn:Hend.
  2: { unfold upload, upload_file in H.
       destruct (String.eqb_spec (filename f) ""); [done|].
       rewrite Hend, andb_false_r in H. discriminate. }
  rewrite upload_named in H by assumption.
  destruct (save _ _ _) as [fs'' [e|]]; [discriminate|].
  destruct (init _ _) as [p|]; [|discriminate].
  injection H as <- <- <-.
  exists p. eexists. split; [reflexivity|]. split; [reflexivity|].
  split; [simpl; auto|].
  repeat constructor; apply served.
Qed.

End Upload.

Lemma upload_accepted_witness :
  exists bt spelled,
    In (bt, spelled) tag_titles /\
    upload_file MoreSamples.text_of MoreSamples.keep MoreSamples.folder
      MoreSamples.write Samples.fs None (Some MoreSamples.upload)
    = ((JObj [ ("success", JBool true);
               ("filename",
                JStr (MoreSamples.keep (filename MoreSamples.upload)));
               ("browser_type", JStr bt);
               ("message",
                JStr ("Successfully loaded " ++ spelled ++ " database")) ],
        200%Z),
       MoreSamples.fs_saved,
       Some {| db_path := MoreSamples.saved_path; browser_type := bt |}) /\
    (MoreSamples.fs_saved MoreSamples.saved_path = stream MoreSamples.upload ->
     detect_browser_type (fun _ => stream MoreSamples.upload) "" = Ok bt).
Proof.
  apply (upload_accepted MoreSamples.text_of MoreSamples.keep
           MoreSamples.folder MoreSamples.write Samples.fs
           MoreSamples.fs_saved None MoreSamples.upload);
    [discriminate | reflexivity | reflexivity].
Defined.

Lemma upload_save_failed_witness :
  upload_file MoreSamples.text_of MoreSamples.keep MoreSamples.folder
    MoreSamples.refuse Samples.fs (Some Samples.chrome)
    (Some MoreSamples.upload)
  = (error_response
       ("Error processing file: " ++ MoreSamples.text_of OperationalError)
       500,
     Samples.fs, Some Samples.chrome).
Proof.
  apply (upload_save_failed MoreSamples.text_of MoreSamples.keep
           MoreSamples.folder MoreSamples.refuse Samples.fs Samples.fs
           (Some Samples.chrome) MoreSamples.upload OperationalError);
    [discriminate | reflexivity | reflexivity].
Defined.

Lemma upload_then_api_witness :
  exists p fields,
    snd MoreSamples.uploaded = Some p /\
    fst (fst (fst MoreSamples.uploaded)) = JObj fields /\
    In ("browser_type", JStr (browser_type p)) fields /\
    Forall (fun route : filesystem -> option BrowserHistoryParser -> response =>
              snd (route (snd (fst MoreSamples.uploaded))
                     (snd MoreSamples.uploaded)) <> 400%Z /\
              (snd (route (snd (fst MoreSamples.uploaded))
                      (snd MoreSamples.uploaded)) = 200%Z ->
               exists rows,
                 fst (route (snd (fst MoreSamples.uploaded))
                        (snd MoreSamples.uploaded))
                 = JObj [("data", JArr rows);
                         ("browser_type", JStr (browser_type p))]))
      [get_history MoreSamples.text_of; get_downloads MoreSamples.text_of;
       get_visits MoreSamples.text_of; get_search_terms MoreSamples.text_of].
Proof.
  apply (upload_then_api MoreSamples.text_of MoreSamples.keep
           MoreSamples.folder MoreSamples.write Samples.fs
           (snd (fst MoreSamples.uploaded)) None (snd MoreSamples.uploaded)
           (Some MoreSamples.upload) (fst (fst (fst MoreSamples.uploaded)))).
  vm_compute. reflexivity.
Defined.

(** A BLOB url reaches the history route as bytes, which no JSON holds. *)
Example blob_url_answers_500 :
  get_history MoreSamples.text_of
    (fun _ => SqliteFile MoreSamples.blob_db) (Some MoreSamples.blob_parser)
  = error_response "failed" 500.
Proof. vm_compute. reflexivity. Qed.

(** The uploaded places file is served under the tag 'firefox'. *)
Example uploaded_places_served :
  snd MoreSamples.uploaded
  = Some {| db_path := "/tmp/uploads/Places.SQLite";
            browser_type := "firefox" |}
  /\ snd (get_visits MoreSamples.text_of (snd (fst MoreSamples.uploaded))
            (snd MoreSamples.uploaded)) = 200%Z.
Proof. split; vm_compute; reflexivity. Qed.

(** ** The startup script *)

(** X21. [create_directory_structure] raises exactly when templates or
    static exists as something other than a directory.  Otherwise both are
    directories afterwards, it returns True exactly when templates was a
    directory holding index.html, it neither makes nor removes that file,
    and a second run changes nothing and returns the same. *)
Theorem create_directory_structure_outcome (t : Startup.tree) :
  let c := Startup.create_directory_structure t in
  (Startup.c_returned c = None <->
   Startup.templates t = Startup.RegularFile
   \/ Startup.static t = Startup.RegularFile) /\
  (Startup.c_returned c = Some true <->
   Startup.templates t = Startup.Directory
   /\ Startup.index_html t = true
   /\ Startup.static t <> Startup.RegularFile) /\
  (Startup.c_returned c <> None ->
   Startup.templates (Startup.c_after c) = Startup.Directory
   /\ Startup.static (Startup.c_after c) = Startup.Directory
   /\ Startup.index_exists (Startup.c_after c) = Startup.index_exists t
   /\ Startup.c_after (Startup.create_directory_structure (Startup.c_after c))
      = Startup.c_after c
   /\ Startup.c_returned
        (Startup.create_directory_structure (Startup.c_after c))
      = Startup.c_returned c).
Proof.
  destruct t as [[] [] []]; cbn; repeat split; intros;
    try discriminate; try tauto;
    repeat match goal with
    | H : _ \/ _ |- _ => destruct H
    | H : _ /\ _ |- _ => destruct H
    end; try discriminate; try congruence; auto.
Qed.

(** X22. [main] gets to run the server exactly when flask and werkzeug
    import, the directory check returns True and app.py imports.  While an
    import of flask or werkzeug fails it leaves the directory untouched and
    raises nothing.  It lets through the FileExistsError of the directory
    check; and of what importing app.py or running the server raises it
    lets through exactly the exceptions that are no Exceptions, such as
    KeyboardInterrupt and SystemExit, while an ImportError and every other
    Exception there is caught. *)
Theorem main_serves (env : Startup.environment) (t : Startup.tree) :
  let r := Startup.main env t in
  let checked :=
    Startup.import_flask env = None
    /\ Startup.import_werkzeug env = None
    /\ Startup.c_returned (Startup.create_directory_structure t) = Some true in
  (Startup.m_served r = true <-> checked /\ Startup.import_app env = None) /\
  (Startup.import_flask env <> None \/ Startup.import_werkzeug env <> None ->
   Startup.m_after r = t /\ Startup.m_raised r = None) /\
  (Startup.m_raised r = Some Startup.FileExistsError <->
   Startup.import_flask env = None
   /\ Startup.import_werkzeug env = None
   /\ Startup.c_returned (Startup.create_directory_structure t) = None) /\
  (forall name,
     Startup.m_raised r = Some (Startup.BaseException name) <->
     checked
     /\ (Startup.import_app env = Some (Startup.AppBaseException name)
         \/ Startup.import_app env = None
            /\ Startup.run_app env = Some (Startup.AppBaseException name))) /\
  (checked ->
   (Startup.import_app env = Some Startup.AppImportError
    \/ (exists text, Startup.import_app env = Some (Startup.AppException text))
    \/ Startup.import_app env = None
       /\ (Startup.run_app env = None
           \/ Startup.run_app env = Some Startup.AppImportError
           \/ exists text,
                Startup.run_app env = Some (Startup.AppException text))) ->
   Startup.m_raised r = None).
Proof.
  cbn zeta. unfold Startup.main, Startup.check_requirements.
  destruct env as [[f|] [w|] a r]; cbn [Startup.import_flask
    Startup.import_werkzeug Startup.import_app Startup.run_app negb].
  1-3: repeat split; intros; cbn in *;
    repeat match goal with
    | H : _ /\ _ |- _ => destruct H
    | H : _ \/ _ |- _ => destruct H
    end; try discriminate; try congruence; auto.
  destruct (Startup.c_returned (Startup.create_directory_structure t))
    as [[]|]; [destruct a as [[]|]; [..|destruct r as [[]|]]|..];
    cbn; repeat split; intros;
    repeat match goal with
    | H : _ /\ _ |- _ => destruct H
    | H : _ \/ _ |- _ => destruct H
    | H : exists _, _ |- _ => destruct H
    end; try discriminate; try congruence; auto;
    try (left; congruence); try (right; split; congruence).
Qed.

(** ** From the tag to the statements *)

Lemma name_eqb_refl (s : string) : Sql.name_eqb s s = true.
Proof. unfold Sql.name_eqb. apply String.eqb_refl. Qed.

Lemma listed_table_found (d : Sql.database) (name : string) :
  name ∈ List.map Sql.tbl_name d -> exists t, Sql.find_table d name = Ok t.
Proof.
  rewrite list_elem_of_In, in_map_iff. intros (t & <- & Hin).
  unfold Sql.find_table.
  destruct (List.find _ d) as [t'|] eqn:E; [eauto|].
  eapply find_none in E; [|exact Hin]. cbn beta in E.
  by rewrite name_eqb_refl in E.
Qed.

(** X23. The tables a tag vouches for are the ones the family's statements
    read first: on a path classified 'chrome' the statements find urls,
    visits and downloads; on 'firefox', moz_places and moz_historyvisits;
    on 'safari', history_items.  Such a statement can still fail, but not
    for want of its table. *)
Theorem tagged_tables_found (fs : filesystem) (path : string) (bt : string) :
  detect_browser_type fs path = Ok bt ->
  bt <> "unknown" ->
  exists d,
    fs path = SqliteFile d /\
    Forall (fun name => exists t, Sql.find_table d name = Ok t)
      (if String.eqb bt "chrome" then
         [ fst (Sql.q_from chrome_history_query);
           fst (Sql.q_from chrome_visits_query);
           fst (Sql.q_from chrome_downloads_query) ]
       else if String.eqb bt "firefox" then
         [ fst (Sql.q_from firefox_history_query);
           fst (Sql.q_from firefox_visits_query) ]
       else [ fst (Sql.q_from safari_history_query) ]).
Proof.
  unfold detect_browser_type, connect. intros H Hbt.
  destruct (fs path) as [| |d]; cbn [bind table_names try_except] in H;
    try (injection H as <-; contradiction).
  exists d. split; [reflexivity|].
  set (tables := List.map Sql.tbl_name d) in *.
  destruct (_ && _) eqn:Hc in H.
  { injection H as <-. rewrite !andb_true_iff, !py_in_elem_of in Hc.
    cbn. repeat constructor; apply listed_table_found; tauto. }
  destruct (_ && _) eqn:Hg in H.
  { injection H as <-. rewrite !andb_true_iff, !py_in_elem_of in Hg.
    cbn. repeat constructor; apply listed_table_found; tauto. }
  destruct (_ && _) eqn:Hw in H.
  { injection H as <-. rewrite !andb_true_iff, !py_in_elem_of in Hw.
    cbn. repeat constructor; apply listed_table_found; tauto. }
  injection H as <-. contradiction.
Qed.

Lemma tagged_tables_found_witness :
  exists d,
    Samples.fs "History" = SqliteFile d /\
    Forall (fun name => exists t, Sql.find_table d name = Ok t)
      [ fst (Sql.q_from chrome_history_query);
        fst (Sql.q_from chrome_visits_query);
        fst (Sql.q_from chrome_downloads_query) ].
Proof.
  apply (tagged_tables_found Samples.fs "History" "chrome").
  - vm_compute. reflexivity.
  - discriminate.
Defined.

(** ** Referrers *)

Lemma join_rows_left_length (i j width : nat) (ls rs : list Sql.row) :
  length ls <= length (Sql.join_rows Sql.LeftOuter i j width ls rs).
Proof.
  unfold Sql.join_rows. induction ls as [|l ls IH]; [simpl; lia|].
  cbn [flat_map]. rewrite length_app. cbn [length].
  match goal with
  | |- _ <= length ?first + _ => assert (1 <= length first)
  end.
  - match goal with
    | |- context [List.filter ?f rs] => destruct (List.filter f rs) as [|m ms]
    end; simpl; lia.
  - eapply Nat.le_trans; [|apply Nat.add_le_mono; [exact H | exact IH]].
    simpl. lia.
Qed.

Lemma join_step_left_length d rel j rel' :
  Sql.j_kind j = Sql.LeftOuter ->
  Sql.join_step d rel j = Ok rel' ->
  length (snd rel) <= length (snd rel').
Proof.
  intros Hk H. unfold Sql.join_step in H.
  apply bind_ok in H as (right & _ & H).
  apply bind_ok in H as (a & _ & H). apply bind_ok in H as (b & _ & H).
  injection H as <-. rewrite Hk. cbn [snd]. apply join_rows_left_length.
Qed.

Lemma join_all_left_length d rel js rel' :
  Forall (fun j => Sql.j_kind j = Sql.LeftOuter) js ->
  Sql.join_all d rel js = Ok rel' ->
  length (snd rel) <= length (snd rel').
Proof.
  intros Hjs. revert rel. induction Hjs as [|j js Hj _ IH]; intros rel H;
    simpl in H.
  - injection H as <-. lia.
  - apply bind_ok in H as (rel1 & H1 & H).
    apply join_step_left_length in H1; [|exact Hj]. apply IH in H. lia.
Qed.

(** After its first join, a statement whose other joins are left joins
    and that has no filter loses rows to its LIMIT only. *)
Lemma eval_left_joins (d : Sql.database) (q : Sql.query) j js rows :
  Sql.q_joins q = j :: js ->
  Forall (fun j => Sql.j_kind j = Sql.LeftOuter) js ->
  Sql.q_where q = None ->
  Sql.eval d q = Ok rows ->
  exists base joined,
    Sql.scan d (fst (Sql.q_from q)) (snd (Sql.q_from q)) = Ok base /\
    Sql.join_step d base j = Ok joined /\
    length (Sql.apply_limit (Sql.q_limit q) (snd joined)) <= length rows.
Proof.
  intros Hj Hjs Hw H. unfold Sql.eval in H. rewrite Hj, Hw in H.
  apply bind_ok in H as (base & Hbase & H).
  apply bind_ok in H as (rel & Hrel & H).
  apply bind_ok in H as (sel & _ & H). cbn [Sql.apply_where bind] in H.
  apply bind_ok in H as (k & _ & H). injection H as <-.
  simpl in Hrel. apply bind_ok in Hrel as (joined & Hjoined & Hrel).
  apply join_all_left_length in Hrel; [|exact Hjs].
  exists base, joined. repeat split; auto.
  rewrite length_map.
  destruct (Sql.q_limit q) as [n|]; cbn [Sql.apply_limit].
  - rewrite !length_take, length_sorted_rows. lia.
  - by rewrite length_sorted_rows.
Qed.

(** X24. Looking up the referrer loses no visit: when the visits operation
    returns any record, it returns one for each visit joined to its url (to
    its place, for 'firefox'), up to the cap of 1000, whether or not the
    visit has a referrer. *)
Theorem visits_keep_unreferred
  (fs : filesystem) (self : BrowserHistoryParser)
  (d : Sql.database) (data : list VisitRecord) :
  fs (db_path self) = SqliteFile d ->
  get_visits_data fs self = Ok data ->
  data <> [] ->
  exists q base joined,
    (browser_type self = "chrome" /\ q = chrome_visits_query
     \/ browser_type self = "firefox" /\ q = firefox_visits_query) /\
    Sql.scan d (fst (Sql.q_from q)) (snd (Sql.q_from q)) = Ok base /\
    Sql.join_step d base (List.hd
                            {| Sql.j_kind := Sql.Inner; Sql.j_table := "";
                               Sql.j_alias := "";
                               Sql.j_on := (Sql.ucol "", Sql.ucol "") |}
                            (Sql.q_joins q)) = Ok joined /\
    Sql.j_kind (List.hd
                  {| Sql.j_kind := Sql.Inner; Sql.j_table := "";
                     Sql.j_alias := "";
                     Sql.j_on := (Sql.ucol "", Sql.ucol "") |}
                  (Sql.q_joins q)) = Sql.Inner /\
    Nat.min 1000 (length (snd joined)) <= length data.
Proof.
  intros Hfs H Hne.
  apply get_visits_data_inv in H as [-> | (d' & rows & Hfs' & H)]; [done|].
  rewrite Hfs in Hfs'. injection Hfs' as <-.
  assert (Hleft : forall q j js,
            Sql.q_joins q = j :: js ->
            Forall (fun j => Sql.j_kind j = Sql.LeftOuter) js ->
            Sql.q_where q = None ->
            Sql.q_limit q = Some 1000 ->
            Sql.eval d q = Ok rows ->
            length data = length rows ->
            exists base joined,
              Sql.scan d (fst (Sql.q_from q)) (snd (Sql.q_from q)) = Ok base /\
              Sql.join_step d base j = Ok joined /\
              Nat.min 1000 (length (snd joined)) <= length data).
  { intros q j js Hj Hjs Hw Hl He Hlen.
    destruct (eval_left_joins d q j js rows Hj Hjs Hw He)
      as (base & joined & Hb & Hjoin & Hle).
    exists base, joined. repeat split; auto.
    rewrite Hl in Hle. cbn [Sql.apply_limit] in Hle.
    rewrite length_take in Hle. lia. }
  destruct H as [(Hbt & He & Hf) | (Hbt & He & Hf)];
    apply mapped_length in Hf.
  - destruct (Hleft chrome_visits_query _ _ eq_refl) as (base & joined & H);
      [repeat constructor | reflexivity | reflexivity | exact He | exact Hf |].
    exists chrome_visits_query, base, joined. intuition.
  - destruct (Hleft firefox_visits_query _ _ eq_refl) as (base & joined & H);
      [repeat constructor | reflexivity | reflexivity | exact He | exact Hf |].
    exists firefox_visits_query, base, joined. intuition.
Qed.

Lemma visits_keep_unreferred_witness :
  exists q base joined,
    (browser_type Samples.chrome = "chrome" /\ q = chrome_visits_query
     \/ browser_type Samples.chrome = "firefox" /\ q = firefox_visits_query) /\
    Sql.scan Samples.chrome_db (fst (Sql.q_from q)) (snd (Sql.q_from q))
    = Ok base /\
    Sql.join_step Samples.chrome_db base
      (List.hd {| Sql.j_kind := Sql.Inner; Sql.j_table := "";
                  Sql.j_alias := "";
                  Sql.j_on := (Sql.ucol "", Sql.ucol "") |}
         (Sql.q_joins q)) = Ok joined /\
    Sql.j_kind (List.hd
                  {| Sql.j_kind := Sql.Inner; Sql.j_table := "";
                     Sql.j_alias := "";
                     Sql.j_on := (Sql.ucol "", Sql.ucol "") |}
                  (Sql.q_joins q)) = Sql.Inner /\
    Nat.min 1000 (length (snd joined))
    <= length [MoreSamples.visit_b; MoreSamples.visit_a2; MoreSamples.visit_a1].
Proof.
  apply (visits_keep_unreferred Samples.fs Samples.chrome Samples.chrome_db
           [MoreSamples.visit_b; MoreSamples.visit_a2; MoreSamples.visit_a1]
           eq_refl).
  - vm_compute. reflexivity.
  - discriminate.
Defined.
